(** * HSTS route admission: the requiredrouteannotations plugin

    A shallow embedding of the decision logic of the
    [route.openshift.io/RequiredRouteAnnotations] admission plugin
    (package [requiredrouteannotations]): the annotation parser
    [hstsConfigFromRoute], the validator [meetsRequirements], the matchers
    [matchesDomain] and [matchesNamespaceSelector], and the evaluator
    [isRouteHSTSAllowed].

    Conventions.
    - A Go [string] is a byte string ([string] of the standard library).
      Annotations are taken to be ASCII text, on which [strings.ToLower]
      and [strings.EqualFold] act bytewise; the model leaves bytes above
      127 as they are.
    - A Go [int32] or [int64] is a [Z]; the conversion [int32(x)] is written
      out with its wrap-around.
    - A Go [map[string]string] is a [gmap string string]; indexing a missing
      key gives the empty string.
    - A Go [error] value is an [option error], [None] being [nil].  The type
      [error] records which package built the value.
    - A function that can panic returns in [run]. *)

From Stdlib Require Import ZArith String Ascii DecimalString.
From stdpp Require Import gmap strings list.

Open Scope string_scope.
Open Scope Z_scope.

(** ** Go runtime: error values and panics *)

(** [*strconv.NumError]. *)
Record NumError := { Func : string; Num : string; Err : string }.

(** An [error] value, by the package that built it. *)
Inductive error :=
| Errorf (msg : string)                (* fmt.Errorf, no %w verb *)
| numError (e : NumError)              (* strconv.ParseInt *)
| labelsError (msg : string).          (* metav1.LabelSelectorAsSelector *)

Definition dquote : string := String "034" "".

(** The [Error()] method.  [strconv.Quote] is written for the strings that
    need no escaping. *)
Definition Error (e : error) : string :=
  match e with
  | Errorf msg => msg
  | numError e =>
      "strconv." +:+ Func e +:+ ": parsing " +:+ dquote +:+ Num e
        +:+ dquote +:+ ": " +:+ Err e
  | labelsError msg => msg
  end.

(** The verb [%d]. *)
Definition fmt_d (n : Z) : string := NilZero.string_of_int (Z.to_int n).

(** A run of a function that may panic. *)
Inductive run (A : Type) :=
| Done (a : A)
| Panic (msg : string).
Arguments Done {A} a.
Arguments Panic {A} msg.

#[global] Instance run_ret : MRet run := fun A a => Done a.
#[global] Instance run_bind : MBind run := fun A B k m =>
  match m with
  | Done a => k a
  | Panic msg => Panic msg
  end.

(** ** Package [strings] and the numeric conversions *)

Module GoStrings.

Definition isUpper (c : ascii) : bool :=
  let n := N_of_ascii c in ((65 <=? n) && (n <=? 90))%N.

Definition lowerByte (c : ascii) : ascii :=
  if isUpper c then ascii_of_N (N_of_ascii c + 32) else c.

(** [strings.ToLower] on ASCII text: the letters A to Z are lowered, every
    other byte is kept.  On other text Go lowers every rune by
    [unicode.ToLower]; the statements that depend on the difference are made
    for ASCII annotations. *)
Fixpoint ToLower (s : string) : string :=
  match s with
  | EmptyString => EmptyString
  | String c r => String (lowerByte c) (ToLower r)
  end.

(** [strings.ReplaceAll s old new] for a one-byte [old]. *)
Fixpoint ReplaceAll (s : string) (old : ascii) (new : string) : string :=
  match s with
  | EmptyString => EmptyString
  | String c r =>
      if Ascii.eqb c old then new +:+ ReplaceAll r old new
      else String c (ReplaceAll r old new)
  end.

(** [strings.Split s sep] for a one-byte [sep]: never the empty list. *)
Fixpoint Split (s : string) (sep : ascii) : list string :=
  match s with
  | EmptyString => [EmptyString]
  | String c r =>
      if Ascii.eqb c sep then EmptyString :: Split r sep
      else match Split r sep with
           | t :: ts => String c t :: ts
           | [] => [String c EmptyString]
           end
  end.

(** [strings.EqualFold] on ASCII text: equality up to the case of the
    letters A to Z.  On other text Go folds runes too (the long s with s). *)
Definition EqualFold (s t : string) : bool :=
  String.eqb (ToLower s) (ToLower t).

(** [strings.HasPrefix]. *)
Fixpoint HasPrefix (s p : string) {struct p} : bool :=
  match p, s with
  | EmptyString, _ => true
  | String a p', String b s' => Ascii.eqb a b && HasPrefix s' p'
  | String _ _, EmptyString => false
  end.

(** [s[n:]], for [n] within the string. *)
Fixpoint drop (n : nat) (s : string) : string :=
  match n, s with
  | O, _ => s
  | S n', String _ r => drop n' r
  | S _, EmptyString => EmptyString
  end.

End GoStrings.

Definition isDigit (c : ascii) : bool :=
  let n := N_of_ascii c in ((48 <=? n) && (n <=? 57))%N.

Definition digitVal (c : ascii) : Z := Z.of_N (N_of_ascii c) - 48.

Module GoStrconv.

Definition ErrRange : string := "value out of range".
Definition ErrSyntax : string := "invalid syntax".

Definition syntaxError (fn str : string) : NumError :=
  {| Func := fn; Num := str; Err := ErrSyntax |}.
Definition rangeError (fn str : string) : NumError :=
  {| Func := fn; Num := str; Err := ErrRange |}.

(** The value of a string of decimal digits; [None] on any other byte. *)
Fixpoint digitsValue (acc : Z) (s : string) : option Z :=
  match s with
  | EmptyString => Some acc
  | String c r =>
      if isDigit c then digitsValue (acc * 10 + digitVal c) r else None
  end.

(** [strconv.ParseInt(s, 10, bitSize)]: base 10, so no underscores and no
    base prefix.  On a range error the nearest bound comes with it. *)
Definition ParseInt (s : string) (bitSize : Z) : Z * option error :=
  let fn := "ParseInt" in
  match s with
  | EmptyString => (0, Some (numError (syntaxError fn s)))
  | String c r =>
      let neg := Ascii.eqb c "-" in
      let body := if neg || Ascii.eqb c "+" then r else s in
      match body with
      | EmptyString => (0, Some (numError (syntaxError fn s)))
      | _ =>
          match digitsValue 0 body with
          | None => (0, Some (numError (syntaxError fn s)))
          | Some un =>
              let cutoff := 2 ^ (bitSize - 1) in
              if negb neg && (cutoff <=? un) then
                (cutoff - 1, Some (numError (rangeError fn s)))
              else if neg && (cutoff <? un) then
                (- cutoff, Some (numError (rangeError fn s)))
              else
                (if neg then - un else un, None)
          end
      end
  end.

End GoStrconv.

(** The conversion [int32(x)] of an [int64]. *)
Definition int32 (x : Z) : Z := (x + 2 ^ 31) mod 2 ^ 32 - 2 ^ 31.

(** ** The API types the plugin reads *)

Module metav1.

Record LabelSelectorRequirement := {
  Key : string;
  Operator : string;
  Values : list string
}.

Record LabelSelector := {
  MatchLabels : gmap string string;
  MatchExpressions : list LabelSelectorRequirement
}.

End metav1.

Module corev1.

Record Namespace := { Labels : gmap string string }.

End corev1.

Module configv1.

Record MaxAgePolicy := {
  LargestMaxAge : option Z;      (* *int32 *)
  SmallestMaxAge : option Z      (* *int32 *)
}.

(** [PreloadPolicy] and [IncludeSubDomainsPolicy] are string types; the
    values are those of package [github.com/openshift/api/config/v1].  Any
    other string is a value of the types too. *)
Definition RequirePreloadPolicy : string := "RequirePreload".
Definition RequireNoPreloadPolicy : string := "RequireNoPreload".
Definition NoOpinionPreloadPolicy : string := "NoOpinion".

Definition RequireIncludeSubDomains : string := "RequireIncludeSubDomains".
Definition RequireNoIncludeSubDomains : string := "RequireNoIncludeSubDomains".
Definition NoOpinionIncludeSubDomains : string := "NoOpinion".

Record RequiredHSTSPolicy := {
  NamespaceSelector : option metav1.LabelSelector;   (* nil when absent *)
  DomainPatterns : list string;
  MaxAge : MaxAgePolicy;
  PreloadPolicy : string;
  IncludeSubDomainsPolicy : string
}.

Record IngressSpec := { RequiredHSTSPolicies : list RequiredHSTSPolicy }.

Record Ingress := { Spec : IngressSpec }.

End configv1.

(** The termination names of [github.com/openshift/api/route/v1]. *)
Module routev1.

Definition TLSTerminationEdge : string := "edge".
Definition TLSTerminationReencrypt : string := "reencrypt".

End routev1.

Module routeapi.

(** Modelled from the spec: the termination constants of package
    [pkg/route/apis/route], whose declarations are not among the sources.
    [TLSTerminationType] is a string type; the spec names the values edge,
    reencrypt and passthrough. *)
Definition TLSTerminationEdge : string := "edge".
Definition TLSTerminationPassthrough : string := "passthrough".
Definition TLSTerminationReencrypt : string := "reencrypt".

Record TLSConfig := { Termination : string }.

Record RouteSpec := {
  Host : string;
  TLS : option TLSConfig          (* nil when the route has no TLS *)
}.

Record RouteIngress := { IngressHost : string }.   (* field Host *)

Record RouteStatus := { Ingress : list RouteIngress }.

Record Route := {
  Name : string;
  Namespace : string;
  Annotations : gmap string string;
  Spec : RouteSpec;
  Status : RouteStatus
}.

End routeapi.

(** ** The libraries behind the matchers *)

(** Package [regexp].  [Compile] gives [None] when the expression does not
    parse, and [CompileError] is then the text of its error; [quote] is the
    quoting of an expression in messages (back quotes where the expression
    allows them, [strconv.Quote] otherwise); [MatchString re s] tells whether
    [s] contains a match of [re]. *)
Class RegexpLib := {
  Regexp : Type;
  Compile : string -> option Regexp;
  CompileError : string -> string;
  quote : string -> string;
  MatchString : Regexp -> string -> bool
}.

(** [regexp.MustCompile]: where [Compile] fails it panics with
    [`regexp: Compile(` + quote(str) + `): ` + err.Error()]. *)
Definition MustCompile `{RegexpLib} (expr : string) : run Regexp :=
  match Compile expr with
  | Some re => Done re
  | None => Panic ("regexp: Compile(" +:+ quote expr +:+ "): " +:+ CompileError expr)
  end.

(** Packages [metav1] and [labels]: [LabelSelectorAsSelector] turns a
    selector of the API into a [labels.Selector] or fails with a message;
    [Matches] evaluates the selector on a label set. *)
Class LabelsLib := {
  Selector : Type;
  LabelSelectorAsSelector : metav1.LabelSelector -> Selector + string;
  Matches : Selector -> gmap string string -> bool
}.

(** ** The plugin *)

Definition hstsAnnotation : string := "haproxy.router.openshift.io/hsts_header".

Record hstsConfig := {
  maxAge : Z;                 (* int32 *)
  preload : bool;
  includeSubDomains : bool
}.

(** [reg := regexp.MustCompile(`max-age=(\d+)`)] with its
    [FindStringSubmatch]: the leftmost place where [max-age=] is followed by
    a digit, the group being the longest run of digits there.  The result is
    the whole match and the group, or [[]] (the nil slice) without a match.
    The expression is a constant that parses, so nothing panics here. *)
Module reg.

Fixpoint digitsPrefix (s : string) : string :=
  match s with
  | EmptyString => EmptyString
  | String c r => if isDigit c then String c (digitsPrefix r) else EmptyString
  end.

Definition matchHere (s : string) : list string :=
  if GoStrings.HasPrefix s "max-age=" then
    match digitsPrefix (GoStrings.drop 8 s) with
    | EmptyString => []
    | d => ["max-age=" +:+ d; d]
    end
  else [].

Fixpoint FindStringSubmatch (s : string) : list string :=
  match matchHere s with
  | [] => match s with
          | EmptyString => []
          | String _ r => FindStringSubmatch r
          end
  | m => m
  end.

End reg.

(** One turn of the loop over the tokens. *)
Definition hstsToken (ret : hstsConfig) (token : string) : hstsConfig :=
  let ret :=
    if GoStrings.EqualFold token "includeSubDomains"
    then {| maxAge := maxAge ret; preload := preload ret; includeSubDomains := true |}
    else ret in
  if GoStrings.EqualFold token "preload"
  then {| maxAge := maxAge ret; preload := true; includeSubDomains := includeSubDomains ret |}
  else ret.

(** The annotation as [hstsConfigFromRoute] first rewrites it. *)
Definition trimmedAnnotation (route : routeapi.Route) : string :=
  GoStrings.ToLower
    (GoStrings.ReplaceAll (default "" (routeapi.Annotations route !! hstsAnnotation)) " " "").

(** Parse out the hstsConfig fields from the annotation; unrecognized
    fields are ignored.  The result is the pair the Go function returns. *)
Definition hstsConfigFromRoute (route : routeapi.Route) : option hstsConfig * option error :=
  let ret := {| maxAge := 0; preload := false; includeSubDomains := false |} in
  let trimmed := trimmedAnnotation route in
  let tokens := GoStrings.Split trimmed ";" in
  let ret := fold_left hstsToken tokens ret in
  match reg.FindStringSubmatch trimmed with
  | _ :: group :: _ =>
      match GoStrconv.ParseInt group 32 with
      | (_, Some err) => (None, Some err)
      | (age, None) =>
          (Some {| maxAge := int32 age; preload := preload ret;
                   includeSubDomains := includeSubDomains ret |}, None)
      end
  | _ => (None, Some (Errorf "max-age must be set in HSTS annotation"))
  end.

(** [a orelse b]: the checks of [meetsRequirements] run in order and the
    first one that fails returns. *)
Definition orElse (a b : option error) : option error :=
  match a with
  | Some err => Some err
  | None => b
  end.
Infix "orelse" := orElse (at level 75, right associativity).

(** Make sure the given requirement meets the configured HSTS policy. *)
Definition meetsRequirements (c : hstsConfig) (requirement : configv1.RequiredHSTSPolicy)
  : option error :=
  let age := configv1.MaxAge requirement in
  match configv1.LargestMaxAge age with
  | Some largest =>
      if (0 <=? largest) && (largest <? maxAge c)
      then Some (Errorf ("does not match maximum age " +:+ fmt_d largest))
      else None
  | None => None
  end
  orelse
  match configv1.SmallestMaxAge age with
  | Some smallest =>
      if (0 <=? smallest) && (maxAge c <? smallest)
      then Some (Errorf ("does not match minimum age " +:+ fmt_d smallest))
      else None
  | None => None
  end
  orelse
  (let p := configv1.PreloadPolicy requirement in
   if String.eqb p configv1.NoOpinionPreloadPolicy then None
   else if String.eqb p configv1.RequirePreloadPolicy then
     if negb (preload c) then Some (Errorf "preload must be specified") else None
   else if String.eqb p configv1.RequireNoPreloadPolicy then
     if preload c then Some (Errorf "preload must not be specified") else None
   else None)
  orelse
  (let p := configv1.IncludeSubDomainsPolicy requirement in
   if String.eqb p configv1.NoOpinionIncludeSubDomains then None
   else if String.eqb p configv1.RequireIncludeSubDomains then
     if negb (includeSubDomains c)
     then Some (Errorf "includeSubDomains must be specified") else None
   else if String.eqb p configv1.RequireNoIncludeSubDomains then
     if includeSubDomains c
     then Some (Errorf "includeSubDomains must not be specified") else None
   else None).

(** ** Matching a requirement against a route *)

Section Matchers.

Context {re : RegexpLib} {lb : LabelsLib}.

(** Check all of the required domainMatcher patterns against all provided
    domains, first match returns true.  If none match, return false.  Each
    pattern is compiled when its turn comes. *)
Fixpoint matchesDomain (domainMatchers domains : list string) : run bool :=
  match domainMatchers with
  | [] => Done false
  | matcher :: rest =>
      compiled ← MustCompile ("^" +:+ matcher +:+ "$");
      if existsb (MatchString compiled) domains then Done true
      else matchesDomain rest domains
  end.

Definition getParsedNamespaceSelector (nsSelector : metav1.LabelSelector)
  : Selector + string :=
  LabelSelectorAsSelector nsSelector.

Definition matchesNamespaceSelector (nsSelector : option metav1.LabelSelector)
    (namespace : corev1.Namespace) : bool * option error :=
  match nsSelector with
  | None => (true, None)
  | Some nsSelector =>
      match getParsedNamespaceSelector nsSelector with
      | inr msg => (false, Some (labelsError msg))
      | inl selector => (Matches selector (corev1.Labels namespace), None)
      end
  end.

(** Check if the route matches the required domain/namespace in the HSTS
    Policy. *)
Definition requiredNamespaceDomainMatchesRoute
    (requirement : configv1.RequiredHSTSPolicy) (route : routeapi.Route)
    (namespace : corev1.Namespace) : run (bool * bool * option error) :=
  match matchesNamespaceSelector (configv1.NamespaceSelector requirement) namespace with
  | (_, Some err) => Done (false, false, Some err)
  | (matchesNamespace, None) =>
      let routeDomains :=
        routeapi.Host (routeapi.Spec route)
          :: map routeapi.IngressHost (routeapi.Ingress (routeapi.Status route)) in
      matchesDom ← matchesDomain (configv1.DomainPatterns requirement) routeDomains;
      Done (matchesNamespace, matchesDom, None)
  end.

(** The loop of [isRouteHSTSAllowed] over the requirements. *)
Fixpoint hstsRequirementsLoop (requirements : list configv1.RequiredHSTSPolicy)
    (newRoute : routeapi.Route) (namespace : corev1.Namespace) : run (option error) :=
  match requirements with
  | [] =>
      (* None of the requirements matched this route's domain/namespace *)
      Done None
  | requirement :: rest =>
      r ← requiredNamespaceDomainMatchesRoute requirement newRoute namespace;
      match r with
      | (_, _, Some err) => Done (Some err)
      | (matchesReqNamespace, matchesReqDomain, None) =>
          if negb (matchesReqNamespace && matchesReqDomain)
          then hstsRequirementsLoop rest newRoute namespace
          else
            match hstsConfigFromRoute newRoute with
            | (_, Some err) => Done (Some err)
            | (Some routeHSTS, None) =>
                match meetsRequirements routeHSTS requirement with
                | Some requirementErr => Done (Some requirementErr)
                | None => Done None
                end
            | (None, None) => Done None
            end
      end
  end.

(** isRouteHSTSAllowed returns nil if the route is allowed.  Otherwise,
    returns details and a suggestion in the error.  The log line of the
    default case is left out. *)
Definition isRouteHSTSAllowed (ingress : configv1.Ingress) (newRoute : routeapi.Route)
    (namespace : corev1.Namespace) : run (option error) :=
  match routeapi.TLS (routeapi.Spec newRoute) with
  | Some tls =>
      let termination := routeapi.Termination tls in
      if String.eqb termination routeapi.TLSTerminationEdge
         || String.eqb termination routeapi.TLSTerminationReencrypt
      then
        hstsRequirementsLoop
          (configv1.RequiredHSTSPolicies (configv1.Spec ingress)) newRoute namespace
      else Done None
  | None =>
      Done (Some (Errorf ("termination type is empty, must be "
                            +:+ routev1.TLSTerminationEdge +:+ " or "
                            +:+ routev1.TLSTerminationReencrypt)))
  end.

End Matchers.

(** ** Reference instances of the libraries

    Two small implementations of the library interfaces, to run the plugin
    on concrete routes.  Each covers a fragment of its library and says so;
    the general theorems below hold for every implementation. *)

(** Regular expressions of the form [^ p1 ... pn $], each [pi] a literal
    byte, an escaped punctuation byte, or [.], optionally followed by [*].
    On this fragment an expression matches a host exactly when the whole host
    is a word of it.  [Compile] answers [None] for everything else; the one
    expression outside the fragment that is compiled below is [^($], which
    package [regexp] rejects as well (missing closing parenthesis). *)
Module RefRegexp.

Inductive atom := Lit (c : ascii) | AnyChar.
Inductive token := TAtom (a : atom) | TStar.
Inductive piece := One (a : atom) | Star (a : atom).

Definition isMeta (c : ascii) : bool :=
  existsb (Ascii.eqb c) (list_ascii_of_string "\.+*?()|[]{}^$").

Definition isWordByte (c : ascii) : bool :=
  let n := N_of_ascii c in
  (((48 <=? n) && (n <=? 57)) || ((65 <=? n) && (n <=? 90))
   || ((97 <=? n) && (n <=? 122)) || (n =? 95))%N.

Fixpoint lex (s : string) : option (list token) :=
  match s with
  | EmptyString => Some []
  | String c r =>
      if Ascii.eqb c "\" then
        match r with
        | String e r' =>
            if isWordByte e || (128 <=? N_of_ascii e)%N then None
            else cons (TAtom (Lit e)) <$> lex r'
        | EmptyString => None
        end
      else if Ascii.eqb c "." then cons (TAtom AnyChar) <$> lex r
      else if Ascii.eqb c "*" then cons TStar <$> lex r
      else if isMeta c then None
      else cons (TAtom (Lit c)) <$> lex r
  end.

Fixpoint group (ts : list token) : option (list piece) :=
  match ts with
  | [] => Some []
  | TStar :: _ => None
  | TAtom a :: TStar :: r => cons (Star a) <$> group r
  | TAtom a :: r => cons (One a) <$> group r
  end.

(** The body of [^body$]. *)
Fixpoint stripDollar (s : string) : option string :=
  match s with
  | EmptyString => None
  | String c EmptyString => if Ascii.eqb c "$" then Some EmptyString else None
  | String c r => String c <$> stripDollar r
  end.

Definition compile (expr : string) : option (list piece) :=
  match expr with
  | String c r =>
      if Ascii.eqb c "^" then body ← stripDollar r; ts ← lex body; group ts
      else None
  | EmptyString => None
  end.

Definition atomMatches (a : atom) (c : ascii) : bool :=
  match a with
  | Lit l => Ascii.eqb l c
  | AnyChar => negb (Ascii.eqb c "010")
  end.

Fixpoint matchPieces (ps : list piece) (s : string) {struct ps} : bool :=
  match ps with
  | [] => String.eqb s EmptyString
  | One a :: ps' =>
      match s with
      | String c r => atomMatches a c && matchPieces ps' r
      | EmptyString => false
      end
  | Star a :: ps' =>
      (fix star (s : string) : bool :=
         matchPieces ps' s
         || match s with
            | String c r => atomMatches a c && star r
            | EmptyString => false
            end) s
  end.

(** The error of [^($], the one expression that fails to compile below, and
    the quoting of an expression without back quote or control byte. *)
Definition compileError (expr : string) : string :=
  "error parsing regexp: missing closing ): `" +:+ expr +:+ "`".

Definition backquote (expr : string) : string := "`" +:+ expr +:+ "`".

#[export] Instance lib : RegexpLib :=
  {| Regexp := list piece; Compile := compile; CompileError := compileError;
     quote := backquote; MatchString := matchPieces |}.

End RefRegexp.

(** Label selectors: the operator dispatch of [LabelSelectorAsSelector] and
    the value-count checks and evaluation of [labels.Requirement].  The
    syntax checks on keys and values are left out, so every selector this
    instance rejects is rejected by the library, not the other way round. *)
Module RefLabels.

Inductive Operator := OpEquals | OpIn | OpNotIn | OpExists | OpDoesNotExist.

Record Requirement := {
  key : string;
  operator : Operator;
  strValues : list string
}.

Definition NewRequirement (k : string) (op : Operator) (vals : list string)
  : Requirement + string :=
  let r := {| key := k; operator := op; strValues := vals |} in
  match op, vals with
  | (OpIn | OpNotIn), [] =>
      inr "for 'in', 'notin' operators, values set can't be empty"
  | OpEquals, ([] | _ :: _ :: _) =>
      inr "exact-match compatibility requires one single value"
  | (OpExists | OpDoesNotExist), _ :: _ =>
      inr "values set must be empty for exists and does not exist"
  | _, _ => inl r
  end.

Definition operatorOf (op : string) : Operator + string :=
  if String.eqb op "In" then inl OpIn
  else if String.eqb op "NotIn" then inl OpNotIn
  else if String.eqb op "Exists" then inl OpExists
  else if String.eqb op "DoesNotExist" then inl OpDoesNotExist
  else inr (dquote +:+ op +:+ dquote +:+ " is not a valid label selector operator").

Fixpoint requirementsOfLabels (kvs : list (string * string))
  : list Requirement + string :=
  match kvs with
  | [] => inl []
  | (k, v) :: rest =>
      match NewRequirement k OpEquals [v] with
      | inr msg => inr msg
      | inl r =>
          match requirementsOfLabels rest with
          | inr msg => inr msg
          | inl rs => inl (r :: rs)
          end
      end
  end.

Fixpoint requirementsOfExpressions (exprs : list metav1.LabelSelectorRequirement)
  : list Requirement + string :=
  match exprs with
  | [] => inl []
  | expr :: rest =>
      match operatorOf (metav1.Operator expr) with
      | inr msg => inr msg
      | inl op =>
          match NewRequirement (metav1.Key expr) op (metav1.Values expr) with
          | inr msg => inr msg
          | inl r =>
              match requirementsOfExpressions rest with
              | inr msg => inr msg
              | inl rs => inl (r :: rs)
              end
          end
      end
  end.

Definition labelSelectorAsSelector (ps : metav1.LabelSelector)
  : list Requirement + string :=
  match requirementsOfLabels (map_to_list (metav1.MatchLabels ps)) with
  | inr msg => inr msg
  | inl rs1 =>
      match requirementsOfExpressions (metav1.MatchExpressions ps) with
      | inr msg => inr msg
      | inl rs2 => inl (rs1 ++ rs2)%list
      end
  end.

Definition requirementMatches (ls : gmap string string) (r : Requirement) : bool :=
  match operator r, ls !! key r with
  | (OpEquals | OpIn), Some v => existsb (String.eqb v) (strValues r)
  | (OpEquals | OpIn), None => false
  | OpNotIn, Some v => negb (existsb (String.eqb v) (strValues r))
  | OpNotIn, None => true
  | OpExists, Some _ => true
  | OpExists, None => false
  | OpDoesNotExist, Some _ => false
  | OpDoesNotExist, None => true
  end.

#[export] Instance lib : LabelsLib :=
  {| Selector := list Requirement;
     LabelSelectorAsSelector := labelSelectorAsSelector;
     Matches := fun rs ls => forallb (requirementMatches ls) rs |}.

End RefLabels.

(** ** Sample objects *)

Module Sample.

Definition ns (labels : list (string * string)) : corev1.Namespace :=
  {| corev1.Labels := list_to_map labels |}.

(** A route of host [host] with the given TLS configuration and annotations. *)
Definition route (tls : option routeapi.TLSConfig) (host : string)
    (annotations : list (string * string)) : routeapi.Route :=
  {| routeapi.Name := "route"; routeapi.Namespace := "default";
     routeapi.Annotations := list_to_map annotations;
     routeapi.Spec := {| routeapi.Host := host; routeapi.TLS := tls |};
     routeapi.Status := {| routeapi.Ingress := [] |} |}.

Definition edge : option routeapi.TLSConfig :=
  Some {| routeapi.Termination := routeapi.TLSTerminationEdge |}.

Definition hsts (value : string) : list (string * string) := [(hstsAnnotation, value)].

Definition policy (sel : option metav1.LabelSelector) (patterns : list string)
    (smallest largest : option Z) (pre inc : string) : configv1.RequiredHSTSPolicy :=
  {| configv1.NamespaceSelector := sel;
     configv1.DomainPatterns := patterns;
     configv1.MaxAge := {| configv1.LargestMaxAge := largest;
                           configv1.SmallestMaxAge := smallest |};
     configv1.PreloadPolicy := pre;
     configv1.IncludeSubDomainsPolicy := inc |}.

Definition ingress (requirements : list configv1.RequiredHSTSPolicy) : configv1.Ingress :=
  {| configv1.Spec := {| configv1.RequiredHSTSPolicies := requirements |} |}.

(** A selector with an operator that does not exist. *)
Definition badSelector : metav1.LabelSelector :=
  {| metav1.MatchLabels := ∅;
     metav1.MatchExpressions :=
       [{| metav1.Key := "env"; metav1.Operator := "Bogus"; metav1.Values := [] |}] |}.

Definition exampleCom : list string := [".*\.example\.com"].
Definition exampleOrg : list string := [".*\.example\.org"].
Definition unbalanced : list string := ["("].

Definition nsDefault : corev1.Namespace := ns [].

(** The Edge route of host app.example.com with the given HSTS annotation. *)
Definition app (value : string) : routeapi.Route :=
  route edge "app.example.com" (hsts value).

(** Requirements on example.com: no constraint; max-age of an hour or more;
    preload required; a selector that does not parse.  One on example.org,
    and one whose pattern is not a regular expression. *)
Definition lax : configv1.RequiredHSTSPolicy :=
  policy None exampleCom None None
    configv1.NoOpinionPreloadPolicy configv1.NoOpinionIncludeSubDomains.
Definition minHour : configv1.RequiredHSTSPolicy :=
  policy None exampleCom (Some 3600) None
    configv1.NoOpinionPreloadPolicy configv1.NoOpinionIncludeSubDomains.
Definition needsPreload : configv1.RequiredHSTSPolicy :=
  policy None exampleCom None None
    configv1.RequirePreloadPolicy configv1.NoOpinionIncludeSubDomains.
Definition rejected : configv1.RequiredHSTSPolicy :=
  policy (Some badSelector) exampleCom None None
    configv1.NoOpinionPreloadPolicy configv1.NoOpinionIncludeSubDomains.
Definition orgOnly : configv1.RequiredHSTSPolicy :=
  policy None exampleOrg (Some 3600) None
    configv1.NoOpinionPreloadPolicy configv1.NoOpinionIncludeSubDomains.

Definition unparsable : configv1.RequiredHSTSPolicy :=
  policy None unbalanced None None
    configv1.NoOpinionPreloadPolicy configv1.NoOpinionIncludeSubDomains.

(** Bounds 100 and 200 on max-age, with the given policies. *)
Definition bounded (pre inc : string) : configv1.RequiredHSTSPolicy :=
  policy None exampleCom (Some 100) (Some 200) pre inc.

Definition config (age : Z) (pre inc : bool) : hstsConfig :=
  {| maxAge := age; preload := pre; includeSubDomains := inc |}.

End Sample.

(** ** Vocabulary of the statements *)

(** The two decisions of the evaluator. *)
Definition Allow : run (option error) := Done None.
Definition Deny (reason : error) : run (option error) := Done (Some reason).

Definition errTerminationEmpty : error :=
  Errorf "termination type is empty, must be edge or reencrypt".
Definition errMaxAgeNotSet : error :=
  Errorf "max-age must be set in HSTS annotation".

(** The route has a TLS configuration whose termination is Edge or Reencrypt:
    the evaluator goes on to the requirements. *)
Definition tlsEdgeOrReencrypt (route : routeapi.Route) : Prop :=
  exists tls, routeapi.TLS (routeapi.Spec route) = Some tls
    /\ (routeapi.Termination tls = routeapi.TLSTerminationEdge
        \/ routeapi.Termination tls = routeapi.TLSTerminationReencrypt).

(** The same route with other annotations. *)
Definition setAnnotations (route : routeapi.Route) (annotations : gmap string string)
  : routeapi.Route :=
  {| routeapi.Name := routeapi.Name route;
     routeapi.Namespace := routeapi.Namespace route;
     routeapi.Annotations := annotations;
     routeapi.Spec := routeapi.Spec route;
     routeapi.Status := routeapi.Status route |}.

(** The string has a substring [max-age=] followed by a digit. *)
Definition containsMaxAge (s : string) : Prop :=
  exists pre d post, s = pre +:+ "max-age=" +:+ String d post /\ isDigit d = true.

(** The same requirement without one or both bounds on max-age. *)
Definition setMaxAgePolicy (requirement : configv1.RequiredHSTSPolicy)
    (age : configv1.MaxAgePolicy) : configv1.RequiredHSTSPolicy :=
  {| configv1.NamespaceSelector := configv1.NamespaceSelector requirement;
     configv1.DomainPatterns := configv1.DomainPatterns requirement;
     configv1.MaxAge := age;
     configv1.PreloadPolicy := configv1.PreloadPolicy requirement;
     configv1.IncludeSubDomainsPolicy := configv1.IncludeSubDomainsPolicy requirement |}.

Definition dropLargest (requirement : configv1.RequiredHSTSPolicy) :=
  setMaxAgePolicy requirement
    {| configv1.LargestMaxAge := None;
       configv1.SmallestMaxAge := configv1.SmallestMaxAge (configv1.MaxAge requirement) |}.

Definition dropSmallest (requirement : configv1.RequiredHSTSPolicy) :=
  setMaxAgePolicy requirement
    {| configv1.LargestMaxAge := configv1.LargestMaxAge (configv1.MaxAge requirement);
       configv1.SmallestMaxAge := None |}.

Definition dropBounds (requirement : configv1.RequiredHSTSPolicy) :=
  setMaxAgePolicy requirement
    {| configv1.LargestMaxAge := None; configv1.SmallestMaxAge := None |}.

(** A bound that is unset, or set to a negative number. *)
Definition unsetOrNegative (bound : option Z) : Prop :=
  bound = None \/ exists n, bound = Some n /\ n < 0.

(** The same configuration with another field value. *)
Definition setMaxAge (c : hstsConfig) (age : Z) : hstsConfig :=
  {| maxAge := age; preload := preload c; includeSubDomains := includeSubDomains c |}.
Definition setPreload (c : hstsConfig) (b : bool) : hstsConfig :=
  {| maxAge := maxAge c; preload := b; includeSubDomains := includeSubDomains c |}.
Definition setIncludeSubDomains (c : hstsConfig) (b : bool) : hstsConfig :=
  {| maxAge := maxAge c; preload := preload c; includeSubDomains := b |}.

Section Selection.

Context {re : RegexpLib} {lb : LabelsLib}.

(** Both predicates of the requirement hold of the route: the selector
    parses and matches the namespace, and a pattern matches a host. *)
Definition matched (requirement : configv1.RequiredHSTSPolicy) (route : routeapi.Route)
    (namespace : corev1.Namespace) : Prop :=
  requiredNamespaceDomainMatchesRoute requirement route namespace = Done (true, true, None).

(** The requirement is examined and passed over: its selector parses, the
    patterns that are tried compile, and one of the two predicates fails. *)
Definition passedOver (requirement : configv1.RequiredHSTSPolicy) (route : routeapi.Route)
    (namespace : corev1.Namespace) : Prop :=
  exists matchesNamespace matchesDom,
    requiredNamespaceDomainMatchesRoute requirement route namespace
      = Done (matchesNamespace, matchesDom, None)
    /\ matchesNamespace && matchesDom = false.

End Selection.

(** ** Vocabulary for the parser, the validator and the matchers *)

(** The same route with the HSTS annotation set to [value]. *)
Definition setHSTSAnnotation (route : routeapi.Route) (value : string) : routeapi.Route :=
  setAnnotations route (<[hstsAnnotation := value]> (routeapi.Annotations route)).

(** The string is ASCII text: every byte is below 128.  On such text
    [GoStrings.ToLower] and [GoStrings.EqualFold] are Go's. *)
Fixpoint isASCII (s : string) : bool :=
  match s with
  | EmptyString => true
  | String c r => (N_of_ascii c <? 128)%N && isASCII r
  end.

(** The HSTS annotation of the route, empty when the key is missing. *)
Definition hstsAnnotationOf (route : routeapi.Route) : string :=
  default "" (routeapi.Annotations route !! hstsAnnotation).

(** The tokens of the rewritten annotation. *)
Definition annotationTokens (route : routeapi.Route) : list string :=
  GoStrings.Split (trimmedAnnotation route) ";".

(** Two annotations that differ in the case of letters and in spaces only. *)
Definition sameUpToCaseAndSpaces (a b : string) : Prop :=
  GoStrings.ReplaceAll (GoStrings.ToLower a) " " ""
  = GoStrings.ReplaceAll (GoStrings.ToLower b) " " "".

(** What a requirement asks of a configuration, stated without an order of
    checks: each bound that is set and not negative holds, and each policy
    that requires or forbids a flag finds it so. *)
Definition compliant (c : hstsConfig) (requirement : configv1.RequiredHSTSPolicy) : Prop :=
  (forall largest,
     configv1.LargestMaxAge (configv1.MaxAge requirement) = Some largest ->
     0 <= largest -> maxAge c <= largest)
  /\ (forall smallest,
        configv1.SmallestMaxAge (configv1.MaxAge requirement) = Some smallest ->
        0 <= smallest -> smallest <= maxAge c)
  /\ (configv1.PreloadPolicy requirement = configv1.RequirePreloadPolicy ->
      preload c = true)
  /\ (configv1.PreloadPolicy requirement = configv1.RequireNoPreloadPolicy ->
      preload c = false)
  /\ (configv1.IncludeSubDomainsPolicy requirement = configv1.RequireIncludeSubDomains ->
      includeSubDomains c = true)
  /\ (configv1.IncludeSubDomainsPolicy requirement = configv1.RequireNoIncludeSubDomains ->
      includeSubDomains c = false).

(** The same requirement with other policies. *)
Definition setPolicies (requirement : configv1.RequiredHSTSPolicy) (pre inc : string)
  : configv1.RequiredHSTSPolicy :=
  {| configv1.NamespaceSelector := configv1.NamespaceSelector requirement;
     configv1.DomainPatterns := configv1.DomainPatterns requirement;
     configv1.MaxAge := configv1.MaxAge requirement;
     configv1.PreloadPolicy := pre;
     configv1.IncludeSubDomainsPolicy := inc |}.

(** The same route with another TLS configuration. *)
Definition setTLS (route : routeapi.Route) (tls : option routeapi.TLSConfig)
  : routeapi.Route :=
  {| routeapi.Name := routeapi.Name route;
     routeapi.Namespace := routeapi.Namespace route;
     routeapi.Annotations := routeapi.Annotations route;
     routeapi.Spec := {| routeapi.Host := routeapi.Host (routeapi.Spec route);
                         routeapi.TLS := tls |};
     routeapi.Status := routeapi.Status route |}.

(** The hosts a route is matched on: the host of its spec, then the hosts of
    its status. *)
Definition routeDomains (route : routeapi.Route) : list string :=
  routeapi.Host (routeapi.Spec route)
    :: map routeapi.IngressHost (routeapi.Ingress (routeapi.Status route)).

(** The ingress configuration with these requirements. *)
Definition ingressWith (requirements : list configv1.RequiredHSTSPolicy) : configv1.Ingress :=
  {| configv1.Spec := {| configv1.RequiredHSTSPolicies := requirements |} |}.

Section CompiledPatterns.

Context {re : RegexpLib}.

(** The anchored expression [matchesDomain] compiles for a pattern. *)
Definition anchored (pattern : string) : string := "^" +:+ pattern +:+ "$".

(** The pattern compiles and matches one of the hosts. *)
Definition patternMatches (domains : list string) (pattern : string) : bool :=
  match Compile (anchored pattern) with
  | Some compiled => existsb (MatchString compiled) domains
  | None => false
  end.

Definition compiles (pattern : string) : Prop := is_Some (Compile (anchored pattern)).

(** The value [regexp.MustCompile] panics with on the anchored pattern:
    the quoted expression and the error of [Compile], as the library gives
    them. *)
Definition compilePanic (pattern : string) : string :=
  "regexp: Compile(" +:+ quote (anchored pattern) +:+ "): "
    +:+ CompileError (anchored pattern).

(** Every pattern of every requirement compiles. *)
Definition allPatternsCompile (requirements : list configv1.RequiredHSTSPolicy) : Prop :=
  Forall (fun requirement => Forall compiles (configv1.DomainPatterns requirement))
    requirements.

End CompiledPatterns.

(** ** The admission plugin around the evaluator *)

(** Package [k8s.io/apiserver/pkg/admission], as far as the plugin reads it. *)
Module admission.

Inductive Operation := Create | Update | Delete | Connect.

(** [schema.GroupVersionResource] and [schema.GroupResource]. *)
Record GroupVersionResource := { Group : string; Version : string; Resource : string }.

Definition GroupResource (gvr : GroupVersionResource) : string * string :=
  (Group gvr, Resource gvr).

(** The object of a request, by its dynamic type: an internal route, or
    anything else (nil included). *)
Inductive Object :=
| RouteObject (route : routeapi.Route)
| OtherObject.

Record Attributes := {
  GetResource : GroupVersionResource;
  GetObject : Object
}.

(** The error handed to [admission.NewForbidden], by where it comes from. *)
Inductive internalError :=
| errorsNew (text : string)       (* errors.New *)
| listerError (text : string)     (* the error of a lister's Get *)
| routeError (err : error).       (* the error of isRouteHSTSAllowed *)

(** The result of [admission.NewForbidden(a, internalError)]. *)
Inductive Forbidden := NewForbidden (a : Attributes) (err : internalError).

End admission.

Definition pluginName : string := "route.openshift.io/RequiredRouteAnnotations".

(** [routev1.Resource(resource)]: the resource in the group of the routes. *)
Definition routev1_Resource (resource : string) : string * string :=
  ("route.openshift.io", resource).

(** The listers and the informers.  A namespace or ingress lister is its
    [Get]; the route lister is never called, so its type is left open.  A
    [cache.InformerSynced] is taken at the end of the wait: [true] when the
    informer has synced before the deadline of [waitForSyncedStore]. *)
Definition NamespaceLister : Type := string -> corev1.Namespace + string.
Definition IngressLister : Type := string -> configv1.Ingress + string.
Definition InformerSynced : Type := bool.

Record KubeInformerFactory := {
  NamespacesLister : NamespaceLister;        (* Core().V1().Namespaces().Lister() *)
  NamespacesHasSynced : InformerSynced       (* ...Namespaces().Informer().HasSynced *)
}.

Record ConfigInformerFactory := {
  IngressesLister : IngressLister;           (* Config().V1().Ingresses().Lister() *)
  IngressesHasSynced : InformerSynced
}.

Section Plugin.

Context {RouteLister : Type}.

Record RouteInformerFactory := {
  RoutesLister : RouteLister;                (* Route().V1().Routes().Lister() *)
  RoutesHasSynced : InformerSynced
}.

(** The plugin.  A lister that is nil is [None]. *)
Record requiredRouteAnnotations := {
  Handler : list admission.Operation;
  routeLister : option RouteLister;
  nsLister : option NamespaceLister;
  ingressLister : option IngressLister;
  cachesToSync : list InformerSynced
}.

Definition NewRequiredRouteAnnotations : requiredRouteAnnotations * option error :=
  ({| Handler := [admission.Create; admission.Update];
      routeLister := None; nsLister := None; ingressLister := None;
      cachesToSync := [] |}, None).

Definition SetExternalKubeInformerFactory (o : requiredRouteAnnotations)
    (kubeInformers : KubeInformerFactory) : requiredRouteAnnotations :=
  {| Handler := Handler o;
     routeLister := routeLister o;
     nsLister := Some (NamespacesLister kubeInformers);
     ingressLister := ingressLister o;
     cachesToSync := (cachesToSync o ++ [NamespacesHasSynced kubeInformers])%list |}.

Definition SetOpenShiftRouteInformers (o : requiredRouteAnnotations)
    (informers : RouteInformerFactory) : requiredRouteAnnotations :=
  {| Handler := Handler o;
     routeLister := Some (RoutesLister informers);
     nsLister := nsLister o;
     ingressLister := ingressLister o;
     cachesToSync := (cachesToSync o ++ [RoutesHasSynced informers])%list |}.

Definition SetOpenShiftConfigInformers (o : requiredRouteAnnotations)
    (informers : ConfigInformerFactory) : requiredRouteAnnotations :=
  {| Handler := Handler o;
     routeLister := routeLister o;
     nsLister := nsLister o;
     ingressLister := Some (IngressesLister informers);
     cachesToSync := (cachesToSync o ++ [IngressesHasSynced informers])%list |}.

(** [cache.WaitForNamedCacheSync] on the caches of the plugin: every one has
    synced before the deadline.  Without caches the wait succeeds at once. *)
Definition waitForSyncedStore (o : requiredRouteAnnotations) : bool :=
  forallb (fun synced : InformerSynced => synced) (cachesToSync o).

Definition ValidateInitialization (o : requiredRouteAnnotations) : option error :=
  match ingressLister o with
  | None => Some (Errorf (pluginName +:+ " plugin needs an ingress lister"))
  | Some _ =>
      match routeLister o with
      | None => Some (Errorf (pluginName +:+ " plugin needs a route lister"))
      | Some _ =>
          match nsLister o with
          | None => Some (Errorf (pluginName +:+ " plugin needs a namespace lister"))
          | Some _ =>
              if (length (cachesToSync o) <? 3)%nat
              then Some (Errorf (pluginName +:+ " plugin missing informer synced functions"))
              else None
          end
      end
  end.

(** The panic of a method call on a nil lister. *)
Definition nilDereference : string :=
  "runtime error: invalid memory address or nil pointer dereference".

Context {re : RegexpLib} {lb : LabelsLib}.

(** Validate ensures that routes specify required annotations, and returns
    nil if valid. *)
Definition Validate (o : requiredRouteAnnotations) (a : admission.Attributes)
  : run (option admission.Forbidden) :=
  if negb (bool_decide (admission.GroupResource (admission.GetResource a)
                        = routev1_Resource "routes"))
  then Done None
  else
    match admission.GetObject a with
    | admission.OtherObject => Done None
    | admission.RouteObject newRoute =>
        if negb (waitForSyncedStore o) then
          Done (Some (admission.NewForbidden a
                        (admission.errorsNew (pluginName +:+ ": caches not synchronized"))))
        else
          match ingressLister o with
          | None => Panic nilDereference
          | Some ingresses =>
              match ingresses "cluster" with
              | inr err => Done (Some (admission.NewForbidden a (admission.listerError err)))
              | inl ingress =>
                  match nsLister o with
                  | None => Panic nilDereference
                  | Some namespaces =>
                      match namespaces (routeapi.Namespace newRoute) with
                      | inr err =>
                          Done (Some (admission.NewForbidden a (admission.listerError err)))
                      | inl namespace =>
                          err ← isRouteHSTSAllowed ingress newRoute namespace;
                          match err with
                          | Some err =>
                              Done (Some (admission.NewForbidden a (admission.routeError err)))
                          | None => Done None
                          end
                      end
                  end
              end
          end
    end.

End Plugin.

Arguments RouteInformerFactory : clear implicits.
Arguments requiredRouteAnnotations : clear implicits.

(** Package [pkg/admission] of the repository: the two interfaces a plugin
    may implement, and the initializer that hands the informers to the
    plugins that do. *)
Module openshiftapiserveradmission.

Class WantsOpenShiftConfigInformers (P : Type) :=
  wantsSetOpenShiftConfigInformers : P -> ConfigInformerFactory -> P.

Class WantsOpenShiftRouteInformers (RouteLister P : Type) :=
  wantsSetOpenShiftRouteInformers : P -> RouteInformerFactory RouteLister -> P.

(** The interfaces the dynamic type of a plugin implements: what the two
    type assertions of [Initialize] find. *)
Record methodSet (RouteLister P : Type) := {
  asWantsOpenShiftConfigInformers : option (WantsOpenShiftConfigInformers P);
  asWantsOpenShiftRouteInformers : option (WantsOpenShiftRouteInformers RouteLister P)
}.
Arguments asWantsOpenShiftConfigInformers {RouteLister P} _.
Arguments asWantsOpenShiftRouteInformers {RouteLister P} _.

Record openshiftInformersInitializer (RouteLister : Type) := {
  configInformers : ConfigInformerFactory;
  routeInformers : RouteInformerFactory RouteLister
}.
Arguments configInformers {RouteLister} _.
Arguments routeInformers {RouteLister} _.

Definition NewOpenShiftInformersInitializer {RouteLister : Type}
    (configInformers : ConfigInformerFactory)
    (routeInformers : RouteInformerFactory RouteLister)
  : openshiftInformersInitializer RouteLister :=
  {| configInformers := configInformers; routeInformers := routeInformers |}.

Definition Initialize {RouteLister P : Type} (i : openshiftInformersInitializer RouteLister)
    (methods : methodSet RouteLister P) (plugin : P) : P :=
  let plugin :=
    match asWantsOpenShiftConfigInformers methods with
    | Some wants => wantsSetOpenShiftConfigInformers plugin (configInformers i)
    | None => plugin
    end in
  match asWantsOpenShiftRouteInformers methods with
  | Some wants => wantsSetOpenShiftRouteInformers plugin (routeInformers i)
  | None => plugin
  end.

End openshiftapiserveradmission.

(** The plugin implements both interfaces. *)
#[global] Instance requiredRouteAnnotations_WantsOpenShiftConfigInformers {RouteLister : Type}
  : openshiftapiserveradmission.WantsOpenShiftConfigInformers
      (requiredRouteAnnotations RouteLister) :=
  SetOpenShiftConfigInformers.

#[global] Instance requiredRouteAnnotations_WantsOpenShiftRouteInformers {RouteLister : Type}
  : openshiftapiserveradmission.WantsOpenShiftRouteInformers RouteLister
      (requiredRouteAnnotations RouteLister) :=
  SetOpenShiftRouteInformers.

Definition requiredRouteAnnotations_methods {RouteLister : Type}
  : openshiftapiserveradmission.methodSet RouteLister (requiredRouteAnnotations RouteLister) :=
  {| openshiftapiserveradmission.asWantsOpenShiftConfigInformers :=
       Some requiredRouteAnnotations_WantsOpenShiftConfigInformers;
     openshiftapiserveradmission.asWantsOpenShiftRouteInformers :=
       Some requiredRouteAnnotations_WantsOpenShiftRouteInformers |}.

(** ** Vocabulary for the wiring of the plugin *)

(** The plugin as [NewRequiredRouteAnnotations] returns it. *)
Definition newPlugin {RouteLister : Type} : requiredRouteAnnotations RouteLister :=
  fst NewRequiredRouteAnnotations.

(** One call of a setter of the plugin. *)
Inductive setterCall (RouteLister : Type) :=
| callKube (kubeInformers : KubeInformerFactory)
| callRoute (informers : RouteInformerFactory RouteLister)
| callConfig (informers : ConfigInformerFactory).
Arguments callKube {RouteLister} _.
Arguments callRoute {RouteLister} _.
Arguments callConfig {RouteLister} _.

Definition applyCall {RouteLister : Type} (o : requiredRouteAnnotations RouteLister)
    (call : setterCall RouteLister) : requiredRouteAnnotations RouteLister :=
  match call with
  | callKube f => SetExternalKubeInformerFactory o f
  | callRoute f => SetOpenShiftRouteInformers o f
  | callConfig f => SetOpenShiftConfigInformers o f
  end.

(** The plugin after a sequence of calls of its setters, first call first. *)
Definition applyCalls {RouteLister : Type} (o : requiredRouteAnnotations RouteLister)
    (calls : list (setterCall RouteLister)) : requiredRouteAnnotations RouteLister :=
  fold_left applyCall calls o.

(** The request is for a route: the resource is routes of the route group and
    the object is an internal route. *)
Definition routeRequest (a : admission.Attributes) (newRoute : routeapi.Route) : Prop :=
  admission.GroupResource (admission.GetResource a) = routev1_Resource "routes"
  /\ admission.GetObject a = admission.RouteObject newRoute.

(** ** Sample objects for the plugin *)

Module SamplePlugin.

Definition namespaces : NamespaceLister :=
  fun name =>
    if String.eqb name "default" then inl Sample.nsDefault
    else inr ("namespace " +:+ dquote +:+ name +:+ dquote +:+ " not found").

Definition ingresses (requirements : list configv1.RequiredHSTSPolicy) : IngressLister :=
  fun name =>
    if String.eqb name "cluster" then inl (ingressWith requirements)
    else inr ("ingress.config.openshift.io " +:+ dquote +:+ name +:+ dquote +:+ " not found").

Definition kube (synced : bool) : KubeInformerFactory :=
  {| NamespacesLister := namespaces; NamespacesHasSynced := synced |}.

Definition config (requirements : list configv1.RequiredHSTSPolicy) (synced : bool)
  : ConfigInformerFactory :=
  {| IngressesLister := ingresses requirements; IngressesHasSynced := synced |}.

Definition routes (synced : bool) : RouteInformerFactory unit :=
  {| RoutesLister := tt; RoutesHasSynced := synced |}.

(** The plugin with its three informers, the config informer synced or not. *)
Definition plugin (requirements : list configv1.RequiredHSTSPolicy) (synced : bool)
  : requiredRouteAnnotations unit :=
  applyCalls newPlugin
    [callKube (kube true); callRoute (routes true); callConfig (config requirements synced)].

Definition routesResource : admission.GroupVersionResource :=
  {| admission.Group := "route.openshift.io"; admission.Version := "v1";
     admission.Resource := "routes" |}.

Definition podsResource : admission.GroupVersionResource :=
  {| admission.Group := ""; admission.Version := "v1"; admission.Resource := "pods" |}.

(** A request to create or update this route. *)
Definition request (route : routeapi.Route) : admission.Attributes :=
  {| admission.GetResource := routesResource;
     admission.GetObject := admission.RouteObject route |}.

Definition initializer
  : openshiftapiserveradmission.openshiftInformersInitializer unit :=
  openshiftapiserveradmission.NewOpenShiftInformersInitializer (config [] true) (routes true).

(** A route of example.org whose status names a host of example.com. *)
Definition orgWithComStatus : routeapi.Route :=
  {| routeapi.Name := "route"; routeapi.Namespace := "default";
     routeapi.Annotations := list_to_map (Sample.hsts "max-age=7200");
     routeapi.Spec := {| routeapi.Host := "app.example.org"; routeapi.TLS := Sample.edge |};
     routeapi.Status :=
       {| routeapi.Ingress := [{| routeapi.IngressHost := "app.example.com" |}] |} |}.

(** Bounds on max-age that contradict each other. *)
Definition contradictory : configv1.RequiredHSTSPolicy :=
  Sample.policy None Sample.exampleCom (Some 200) (Some 100)
    configv1.NoOpinionPreloadPolicy configv1.NoOpinionIncludeSubDomains.

(** The zero value of the two policies. *)
Definition zeroPolicies : configv1.RequiredHSTSPolicy :=
  Sample.policy None Sample.exampleCom None None "" "".

(** A requirement without domain patterns. *)
Definition noPatterns : configv1.RequiredHSTSPolicy :=
  Sample.policy None [] (Some 3600) None
    configv1.RequirePreloadPolicy configv1.RequireIncludeSubDomains.

End SamplePlugin.


(** * Properties *)

(** ** The TLS precondition *)

Section Precondition.

Context {re : RegexpLib} {lb : LabelsLib}.

Lemma isRouteHSTSAllowed_requirements ingress route namespace :
  tlsEdgeOrReencrypt route ->
  isRouteHSTSAllowed ingress route namespace
  = hstsRequirementsLoop (configv1.RequiredHSTSPolicies (configv1.Spec ingress))
      route namespace.
Proof.
  intros (tls & Htls & Hterm). unfold isRouteHSTSAllowed. rewrite Htls.
  destruct Hterm as [-> | ->]; reflexivity.
Qed.

(** C2: a route without a TLS configuration is denied with the error
    "termination type is empty, must be edge or reencrypt", whatever the
    ingress configuration, the namespace and the annotations are. *)
Theorem no_tls_denied ingress route namespace :
  routeapi.TLS (routeapi.Spec route) = None ->
  isRouteHSTSAllowed ingress route namespace = Deny errTerminationEmpty
  /\ Error errTerminationEmpty = "termination type is empty, must be edge or reencrypt".
Proof.
  intros Htls. split; [| reflexivity].
  unfold isRouteHSTSAllowed. rewrite Htls. reflexivity.
Qed.

(** C3: a route whose TLS configuration has a termination other than Edge
    and Reencrypt is allowed, whatever the ingress configuration, the
    namespace and the annotations are; no requirement is examined, so no
    selector is parsed and no pattern compiled. *)
Theorem other_termination_allowed ingress route namespace tls :
  routeapi.TLS (routeapi.Spec route) = Some tls ->
  routeapi.Termination tls <> routeapi.TLSTerminationEdge ->
  routeapi.Termination tls <> routeapi.TLSTerminationReencrypt ->
  isRouteHSTSAllowed ingress route namespace = Allow.
Proof.
  intros Htls Hedge Hre. unfold isRouteHSTSAllowed. rewrite Htls. cbv zeta.
  apply String.eqb_neq in Hedge, Hre. rewrite Hedge, Hre. reflexivity.
Qed.

End Precondition.

(** ** The validator *)

Lemma orElse_None_l (b : option error) : (None orelse b) = b.
Proof. reflexivity. Qed.

Lemma orElse_Some_l (e : error) (b : option error) : (Some e orelse b) = Some e.
Proof. reflexivity. Qed.

(** The two checks that do not read max-age. *)
Lemma meetsRequirements_dropBounds c requirement :
  meetsRequirements c (dropBounds requirement)
  = meetsRequirements (setMaxAge c 0) (dropBounds requirement).
Proof. reflexivity. Qed.

Lemma meetsRequirements_in_bounds c requirement :
  (forall largest, configv1.LargestMaxAge (configv1.MaxAge requirement) = Some largest ->
     0 <= largest -> maxAge c <= largest) ->
  (forall smallest, configv1.SmallestMaxAge (configv1.MaxAge requirement) = Some smallest ->
     0 <= smallest -> smallest <= maxAge c) ->
  meetsRequirements c requirement = meetsRequirements c (dropBounds requirement).
Proof.
  intros Hl Hs. unfold meetsRequirements, dropBounds, setMaxAgePolicy; cbn.
  destruct (configv1.LargestMaxAge _) as [l |] eqn:El;
    destruct (configv1.SmallestMaxAge _) as [m |] eqn:Em; cbn.
  - specialize (Hl l eq_refl). specialize (Hs m eq_refl).
    destruct (Z.leb_spec 0 l), (Z.ltb_spec l (maxAge c)); cbn; try lia;
      destruct (Z.leb_spec 0 m), (Z.ltb_spec (maxAge c) m); cbn; try lia; reflexivity.
  - specialize (Hl l eq_refl).
    destruct (Z.leb_spec 0 l), (Z.ltb_spec l (maxAge c)); cbn; try lia; reflexivity.
  - specialize (Hs m eq_refl).
    destruct (Z.leb_spec 0 m), (Z.ltb_spec (maxAge c) m); cbn; try lia; reflexivity.
  - reflexivity.
Qed.

(** C7: the bounds on max-age are inclusive.  For a requirement with smallest
    100 and largest 200, max-age 100 and max-age 200 pass the two bounds: the
    outcome is that of the requirement without bounds, and it is nil whenever
    the configuration has preload and includeSubDomains as the two policies
    want them (as when both have no opinion).  Max-age 99 fails with the
    minimum-age reason and max-age 201 with the maximum-age reason, whatever
    the policies are.  A bound that is unset or negative constrains nothing:
    the outcome is that of the requirement without this bound, and without
    bounds it does not depend on max-age. *)
Theorem max_age_bounds_inclusive (c : hstsConfig) (requirement : configv1.RequiredHSTSPolicy) :
  (configv1.SmallestMaxAge (configv1.MaxAge requirement) = Some 100 ->
   configv1.LargestMaxAge (configv1.MaxAge requirement) = Some 200 ->
   (maxAge c = 100 \/ maxAge c = 200 ->
      meetsRequirements c requirement = meetsRequirements c (dropBounds requirement)
      /\ ((configv1.PreloadPolicy requirement = configv1.RequirePreloadPolicy ->
           preload c = true) ->
          (configv1.PreloadPolicy requirement = configv1.RequireNoPreloadPolicy ->
           preload c = false) ->
          (configv1.IncludeSubDomainsPolicy requirement = configv1.RequireIncludeSubDomains ->
           includeSubDomains c = true) ->
          (configv1.IncludeSubDomainsPolicy requirement
           = configv1.RequireNoIncludeSubDomains ->
           includeSubDomains c = false) ->
          meetsRequirements c requirement = None))
   /\ (maxAge c = 99 ->
       meetsRequirements c requirement = Some (Errorf "does not match minimum age 100"))
   /\ (maxAge c = 201 ->
       meetsRequirements c requirement = Some (Errorf "does not match maximum age 200")))
  /\ (unsetOrNegative (configv1.LargestMaxAge (configv1.MaxAge requirement)) ->
      meetsRequirements c requirement = meetsRequirements c (dropLargest requirement))
  /\ (unsetOrNegative (configv1.SmallestMaxAge (configv1.MaxAge requirement)) ->
      meetsRequirements c requirement = meetsRequirements c (dropSmallest requirement))
  /\ (forall age,
      meetsRequirements (setMaxAge c age) (dropBounds requirement)
      = meetsRequirements c (dropBounds requirement)).
Proof.
  split; [| split; [| split]].
  - intros Hs Hl. split; [| split].
    + intros Hage.
      assert (Hin : meetsRequirements c requirement
                    = meetsRequirements c (dropBounds requirement)).
      { apply meetsRequirements_in_bounds; intros b Hb _.
        - rewrite Hl in Hb. injection Hb as <-. lia.
        - rewrite Hs in Hb. injection Hb as <-. lia. }
      split; [exact Hin |].
      intros Hpr Hpn Hir Hin'. rewrite Hin.
      unfold meetsRequirements, dropBounds, setMaxAgePolicy.
      cbn [configv1.MaxAge configv1.LargestMaxAge configv1.SmallestMaxAge
           configv1.PreloadPolicy configv1.IncludeSubDomainsPolicy orElse].
      destruct (String.eqb_spec (configv1.PreloadPolicy requirement)
                  configv1.NoOpinionPreloadPolicy) as [_ | _];
        [| destruct (String.eqb_spec (configv1.PreloadPolicy requirement)
                       configv1.RequirePreloadPolicy) as [E | _];
           [rewrite (Hpr E) |
            destruct (String.eqb_spec (configv1.PreloadPolicy requirement)
                        configv1.RequireNoPreloadPolicy) as [E | _];
            [rewrite (Hpn E) |]]];
        cbn [negb orElse];
        (destruct (String.eqb_spec (configv1.IncludeSubDomainsPolicy requirement)
                     configv1.NoOpinionIncludeSubDomains) as [_ | _];
         [reflexivity |];
         destruct (String.eqb_spec (configv1.IncludeSubDomainsPolicy requirement)
                     configv1.RequireIncludeSubDomains) as [E' | _];
         [rewrite (Hir E'); reflexivity |];
         destruct (String.eqb_spec (configv1.IncludeSubDomainsPolicy requirement)
                     configv1.RequireNoIncludeSubDomains) as [E' | _];
         [rewrite (Hin' E'); reflexivity | reflexivity]).
    + intros Hage. unfold meetsRequirements. rewrite Hs, Hl, Hage. reflexivity.
    + intros Hage. unfold meetsRequirements. rewrite Hl, Hage. reflexivity.
  - intros [Hn | (n & Hn & Hneg)]; unfold meetsRequirements, dropLargest, setMaxAgePolicy;
      cbn; rewrite Hn; [reflexivity |].
    destruct (Z.leb_spec 0 n); [lia | reflexivity].
  - intros [Hn | (n & Hn & Hneg)]; unfold meetsRequirements, dropSmallest, setMaxAgePolicy;
      cbn; rewrite Hn; [reflexivity |].
    destruct (Z.leb_spec 0 n); [lia | reflexivity].
  - intros age. reflexivity.
Qed.

(** C8: the two policies are three-way.  Under the Require policy a
    configuration without preload fails validation, under the RequireNot
    policy a configuration with preload fails, and under NoOpinion the
    outcome does not depend on preload; likewise for the includeSubDomains
    policy and includeSubDomains. *)
Theorem three_way_policies (c : hstsConfig) (requirement : configv1.RequiredHSTSPolicy) :
  (configv1.PreloadPolicy requirement = configv1.RequirePreloadPolicy ->
   preload c = false -> is_Some (meetsRequirements c requirement))
  /\ (configv1.PreloadPolicy requirement = configv1.RequireNoPreloadPolicy ->
      preload c = true -> is_Some (meetsRequirements c requirement))
  /\ (configv1.PreloadPolicy requirement = configv1.NoOpinionPreloadPolicy ->
      forall b, meetsRequirements (setPreload c b) requirement
                = meetsRequirements c requirement)
  /\ (configv1.IncludeSubDomainsPolicy requirement = configv1.RequireIncludeSubDomains ->
      includeSubDomains c = false -> is_Some (meetsRequirements c requirement))
  /\ (configv1.IncludeSubDomainsPolicy requirement = configv1.RequireNoIncludeSubDomains ->
      includeSubDomains c = true -> is_Some (meetsRequirements c requirement))
  /\ (configv1.IncludeSubDomainsPolicy requirement = configv1.NoOpinionIncludeSubDomains ->
      forall b, meetsRequirements (setIncludeSubDomains c b) requirement
                = meetsRequirements c requirement).
Proof.
  unfold meetsRequirements.
  repeat split.
  - intros Hp Hc. rewrite Hp, Hc. cbn.
    repeat (match goal with |- is_Some (?a orelse _) => destruct a; cbn end;
            [eexists; reflexivity |]).
    eexists; reflexivity.
  - intros Hp Hc. rewrite Hp, Hc. cbn.
    repeat (match goal with |- is_Some (?a orelse _) => destruct a; cbn end;
            [eexists; reflexivity |]).
    eexists; reflexivity.
  - intros Hp b. rewrite Hp. reflexivity.
  - intros Hp Hc. rewrite Hp, Hc. cbn.
    repeat (match goal with |- is_Some (?a orelse _) => destruct a; cbn end;
            [eexists; reflexivity |]).
    eexists; reflexivity.
  - intros Hp Hc. rewrite Hp, Hc. cbn.
    repeat (match goal with |- is_Some (?a orelse _) => destruct a; cbn end;
            [eexists; reflexivity |]).
    eexists; reflexivity.
  - intros Hp b. rewrite Hp. reflexivity.
Qed.

(** ** The annotation parser *)

Lemma append_cons (a : ascii) (p r : string) : String a p +:+ r = String a (p +:+ r).
Proof. reflexivity. Qed.

Lemma append_inv_head (p a b : string) : p +:+ a = p +:+ b -> a = b.
Proof.
  induction p as [| c p IH]; intros Heq; [exact Heq |].
  rewrite !append_cons in Heq. injection Heq as Heq. exact (IH Heq).
Qed.

Lemma HasPrefix_app (p r : string) : GoStrings.HasPrefix (p +:+ r) p = true.
Proof.
  induction p as [| a p IH]; [reflexivity |].
  rewrite append_cons. cbn. rewrite Ascii.eqb_refl. exact IH.
Qed.

Lemma HasPrefix_inv (s p : string) :
  GoStrings.HasPrefix s p = true -> exists r, s = p +:+ r.
Proof.
  revert s. induction p as [| a p IH]; intros s Hs.
  - exists s. reflexivity.
  - destruct s as [| b s]; [discriminate |]. cbn in Hs.
    apply andb_prop in Hs as [Hab Hs]. apply Ascii.eqb_eq in Hab as ->.
    destruct (IH _ Hs) as [r ->]. exists r. reflexivity.
Qed.

Lemma digitsPrefix_empty (s : string) :
  reg.digitsPrefix s = EmptyString <->
  (forall d post, s = String d post -> isDigit d = false).
Proof.
  destruct s as [| c r]; cbn.
  - split; [intros _ d post Hd; discriminate | reflexivity].
  - destruct (isDigit c) eqn:Ec.
    + split; [discriminate |]. intros Hd. specialize (Hd c r eq_refl). congruence.
    + split; [| reflexivity]. intros _ d post [= <- <-]. exact Ec.
Qed.

(** A match at the head of the string. *)
Lemma matchHere_nil (s : string) :
  reg.matchHere s = [] <->
  (forall d post, s = "max-age=" +:+ String d post -> isDigit d = false).
Proof.
  unfold reg.matchHere. destruct (GoStrings.HasPrefix s "max-age=") eqn:Hp.
  - apply HasPrefix_inv in Hp as [r ->].
    change (GoStrings.drop 8 ("max-age=" +:+ r)) with r.
    destruct (reg.digitsPrefix r) eqn:Ed.
    + split; [| reflexivity]. intros _ d post Heq.
      apply digitsPrefix_empty with (d := d) (post := post) in Ed; [exact Ed |].
      exact (append_inv_head _ _ _ Heq).
    + split; [discriminate |]. intros Hd.
      assert (Hr : reg.digitsPrefix r = EmptyString).
      { apply digitsPrefix_empty. intros d post ->. apply (Hd d post). reflexivity. }
      congruence.
  - split; [| reflexivity]. intros _ d post ->.
    rewrite HasPrefix_app in Hp. discriminate.
Qed.

Lemma containsMaxAge_cons (a : ascii) (s : string) :
  containsMaxAge (String a s) <->
  (exists d post, String a s = "max-age=" +:+ String d post /\ isDigit d = true)
  \/ containsMaxAge s.
Proof.
  split.
  - intros (pre & d & post & Heq & Hd). destruct pre as [| b pre].
    + left. exists d, post. split; assumption.
    + right. exists pre, d, post. rewrite append_cons in Heq.
      injection Heq as _ Heq. split; assumption.
  - intros [(d & post & Heq & Hd) | (pre & d & post & Heq & Hd)].
    + exists EmptyString, d, post. split; assumption.
    + exists (String a pre), d, post. rewrite append_cons, Heq. split; [reflexivity | exact Hd].
Qed.

(** The scan finds nothing exactly when the string has no [max-age=] followed
    by a digit. *)
Lemma FindStringSubmatch_nil (s : string) :
  reg.FindStringSubmatch s = [] <-> ~ containsMaxAge s.
Proof.
  induction s as [| a s IH].
  - cbn. split; [| reflexivity]. intros _ (pre & d & post & Heq & _).
    destruct pre; discriminate.
  - rewrite containsMaxAge_cons. cbn [reg.FindStringSubmatch].
    destruct (reg.matchHere (String a s)) eqn:Em.
    + rewrite IH. pose proof (proj1 (matchHere_nil _) Em) as Hhead. split.
      * intros Hs [(d & post & Heq & Hd) | Hc]; [| tauto].
        rewrite (Hhead d post Heq) in Hd. discriminate.
      * tauto.
    + split; [discriminate |]. intros Hno. exfalso.
      assert (Hnil : reg.matchHere (String a s) = []); [| congruence].
      apply matchHere_nil. intros d post Heq.
      destruct (isDigit d) eqn:Ed; [| reflexivity].
      exfalso. apply Hno. left. exists d, post. split; assumption.
Qed.

(** Without [max-age=<digits>] in the rewritten annotation the parser fails. *)
Lemma hstsConfigFromRoute_no_max_age (route : routeapi.Route) :
  ~ containsMaxAge (trimmedAnnotation route) ->
  hstsConfigFromRoute route = (None, Some errMaxAgeNotSet).
Proof.
  intros Hno. apply FindStringSubmatch_nil in Hno.
  unfold hstsConfigFromRoute. cbv zeta. rewrite Hno. reflexivity.
Qed.

Lemma ParseInt_error (s : string) (bitSize v : Z) (err : error) :
  GoStrconv.ParseInt s bitSize = (v, Some err) -> exists e, err = numError e.
Proof.
  unfold GoStrconv.ParseInt. cbv zeta.
  repeat match goal with
         | |- context [match ?t with _ => _ end] => destruct t
         end; intros [= _ <-]; eexists; reflexivity.
Qed.

(** An error of the parser is the missing max-age or comes from strconv. *)
Lemma hstsConfigFromRoute_error (route : routeapi.Route) x err :
  hstsConfigFromRoute route = (x, Some err) ->
  err = errMaxAgeNotSet \/ exists e, err = numError e.
Proof.
  unfold hstsConfigFromRoute. cbv zeta.
  destruct (reg.FindStringSubmatch _) as [| w [| group rest]];
    try (intros [= <- <-]; left; reflexivity).
  destruct (GoStrconv.ParseInt group 32) as [age [e |]] eqn:Ep; [| discriminate].
  intros [= <- <-]. right. exact (ParseInt_error _ _ _ _ Ep).
Qed.

(** C5: the annotation "max-age=3600; includeSubDomains; preload" parses to
    the configuration with max-age 3600, includeSubDomains and preload. *)
Theorem parse_round_trip (route : routeapi.Route) :
  routeapi.Annotations route !! hstsAnnotation
    = Some "max-age=3600; includeSubDomains; preload" ->
  hstsConfigFromRoute route
  = (Some {| maxAge := 3600; preload := true; includeSubDomains := true |}, None).
Proof.
  intros Ha. unfold hstsConfigFromRoute, trimmedAnnotation. rewrite Ha.
  vm_compute. reflexivity.
Qed.

(** ** The walk over the requirements *)

Section Evaluation.

Context {re : RegexpLib} {lb : LabelsLib}.

Implicit Types (requirement : configv1.RequiredHSTSPolicy) (route : routeapi.Route)
  (namespace : corev1.Namespace) (ingress : configv1.Ingress).

(** The matchers read the hosts of the route, never its annotations. *)
Lemma requiredNamespaceDomainMatchesRoute_setAnnotations requirement route namespace a :
  requiredNamespaceDomainMatchesRoute requirement (setAnnotations route a) namespace
  = requiredNamespaceDomainMatchesRoute requirement route namespace.
Proof. reflexivity. Qed.

Lemma passedOver_setAnnotations requirement route namespace a :
  passedOver requirement route namespace ->
  passedOver requirement (setAnnotations route a) namespace.
Proof.
  unfold passedOver. rewrite requiredNamespaceDomainMatchesRoute_setAnnotations. auto.
Qed.

Lemma tlsEdgeOrReencrypt_setAnnotations route a :
  tlsEdgeOrReencrypt route -> tlsEdgeOrReencrypt (setAnnotations route a).
Proof. intros H. exact H. Qed.

(** An error of the matchers is the selector error of the library. *)
Lemma requiredNamespaceDomainMatchesRoute_error requirement route namespace a b err :
  requiredNamespaceDomainMatchesRoute requirement route namespace = Done (a, b, Some err) ->
  exists sel msg, configv1.NamespaceSelector requirement = Some sel
    /\ LabelSelectorAsSelector sel = inr msg /\ err = labelsError msg.
Proof.
  unfold requiredNamespaceDomainMatchesRoute, matchesNamespaceSelector,
    getParsedNamespaceSelector.
  destruct (configv1.NamespaceSelector requirement) as [sel |].
  - destruct (LabelSelectorAsSelector sel) as [s | msg] eqn:Es.
    + destruct (matchesDomain _ _); cbn; discriminate.
    + intros [= <- <- <-]. eauto.
  - destruct (matchesDomain _ _); cbn; discriminate.
Qed.

(** A selector that does not parse stops the evaluation of the requirement
    before any of its patterns is compiled. *)
Lemma requiredNamespaceDomainMatchesRoute_bad_selector requirement route namespace sel msg :
  configv1.NamespaceSelector requirement = Some sel ->
  LabelSelectorAsSelector sel = inr msg ->
  requiredNamespaceDomainMatchesRoute requirement route namespace
  = Done (false, false, Some (labelsError msg)).
Proof.
  intros Hsel Hmsg.
  unfold requiredNamespaceDomainMatchesRoute, matchesNamespaceSelector,
    getParsedNamespaceSelector.
  rewrite Hsel, Hmsg. reflexivity.
Qed.

Lemma hstsRequirementsLoop_passedOver requirement rest route namespace :
  passedOver requirement route namespace ->
  hstsRequirementsLoop (requirement :: rest) route namespace
  = hstsRequirementsLoop rest route namespace.
Proof.
  intros (a & b & Heval & Hab). cbn [hstsRequirementsLoop].
  rewrite Heval. cbn. rewrite Hab. reflexivity.
Qed.

Lemma hstsRequirementsLoop_prefix pre rest route namespace :
  Forall (fun requirement => passedOver requirement route namespace) pre ->
  hstsRequirementsLoop (pre ++ rest)%list route namespace
  = hstsRequirementsLoop rest route namespace.
Proof.
  induction 1 as [| requirement pre Hr _ IH]; [reflexivity |].
  rewrite <- app_comm_cons, hstsRequirementsLoop_passedOver by exact Hr. exact IH.
Qed.

(** At the first requirement that matches, the annotation is parsed and
    checked against this requirement, and the walk ends. *)
Lemma hstsRequirementsLoop_matched requirement rest route namespace :
  matched requirement route namespace ->
  hstsRequirementsLoop (requirement :: rest) route namespace
  = match hstsConfigFromRoute route with
    | (_, Some err) => Deny err
    | (Some routeHSTS, None) =>
        match meetsRequirements routeHSTS requirement with
        | Some requirementErr => Deny requirementErr
        | None => Allow
        end
    | (None, None) => Allow
    end.
Proof.
  intros Heval. cbn [hstsRequirementsLoop]. rewrite Heval. cbn.
  destruct (hstsConfigFromRoute route) as [[c |] [err |]]; reflexivity.
Qed.

Lemma hstsRequirementsLoop_bad_selector requirement rest route namespace sel msg :
  configv1.NamespaceSelector requirement = Some sel ->
  LabelSelectorAsSelector sel = inr msg ->
  hstsRequirementsLoop (requirement :: rest) route namespace = Deny (labelsError msg).
Proof.
  intros Hsel Hmsg. cbn [hstsRequirementsLoop].
  rewrite (requiredNamespaceDomainMatchesRoute_bad_selector _ _ _ _ _ Hsel Hmsg).
  reflexivity.
Qed.

(** The reasons the validator gives. *)
Lemma meetsRequirements_reason c requirement err :
  meetsRequirements c requirement = Some err ->
  exists msg, err = Errorf msg
    /\ (GoStrings.HasPrefix msg "does not match " = true
        \/ GoStrings.HasPrefix msg "preload must " = true
        \/ GoStrings.HasPrefix msg "includeSubDomains must " = true).
Proof.
  unfold meetsRequirements. cbv zeta.
  repeat match goal with
         | |- context [match ?t with _ => _ end] => destruct t
         end; cbn; intros [= <-]; eexists; split; try reflexivity;
    rewrite ?HasPrefix_app; auto.
Qed.

(** No requirement produces the denial of the TLS precondition. *)
Lemma hstsRequirementsLoop_not_termination requirements route namespace :
  hstsRequirementsLoop requirements route namespace <> Deny errTerminationEmpty.
Proof.
  unfold Deny, errTerminationEmpty.
  induction requirements as [| requirement rest IH]; [discriminate |].
  cbn [hstsRequirementsLoop].
  destruct (requiredNamespaceDomainMatchesRoute requirement route namespace)
    as [[[a b] [err |]] | msg] eqn:Heval; cbn; [| | discriminate].
  - apply requiredNamespaceDomainMatchesRoute_error in Heval as (sel & msg & _ & _ & ->).
    discriminate.
  - destruct (negb (a && b)); [exact IH |].
    destruct (hstsConfigFromRoute route) as [[c |] [err |]] eqn:Hparse;
      try (apply hstsConfigFromRoute_error in Hparse as [-> | [e ->]]; discriminate);
      [| discriminate].
    destruct (meetsRequirements c requirement) as [err |] eqn:Hmeets; [| discriminate].
    apply meetsRequirements_reason in Hmeets as (msg & -> & Hmsg).
    intros [= ->]. cbn in Hmsg. intuition discriminate.
Qed.

End Evaluation.

(** ** The decision *)

Section Decision.

Context {re : RegexpLib} {lb : LabelsLib}.

Implicit Types (requirement : configv1.RequiredHSTSPolicy) (route : routeapi.Route)
  (namespace : corev1.Namespace) (ingress : configv1.Ingress).

(** What the two predicates of [passedOver] and [matched] are evaluated on:
    the selector against the labels of the namespace, the patterns against
    the host of the route followed by the hosts of its status. *)
Lemma requiredNamespaceDomainMatchesRoute_ok requirement route namespace a b :
  requiredNamespaceDomainMatchesRoute requirement route namespace = Done (a, b, None) <->
  matchesNamespaceSelector (configv1.NamespaceSelector requirement) namespace = (a, None)
  /\ matchesDomain (configv1.DomainPatterns requirement)
       (routeapi.Host (routeapi.Spec route)
          :: map routeapi.IngressHost (routeapi.Ingress (routeapi.Status route)))
     = Done b.
Proof.
  unfold requiredNamespaceDomainMatchesRoute.
  destruct (matchesNamespaceSelector _ _) as [a' [err |]].
  - split; [discriminate | intros [[=] _]].
  - destruct (matchesDomain _ _) as [b' | msg]; cbn.
    + split; [intros [= -> ->]; auto | intros [[= ->] [= ->]]; reflexivity].
    + split; [discriminate | intros [_ [=]]].
Qed.

(** C1: first-match selection.  Let R1 be the first requirement of the list
    whose two predicates match the route, every requirement before it being
    examined without a selector error or a panic, and let a later requirement
    R2 match as well.  On a route with Edge or Reencrypt termination the
    decision is then made on R1 alone: a parse error of the annotation is the
    denial reason; a parsed annotation that meets R1 is allowed; one that does
    not is denied with the reason found against R1.  R2 and the requirements
    around it are not read. *)
Theorem first_match_selection ingress route namespace pre R1 mid R2 post :
  tlsEdgeOrReencrypt route ->
  configv1.RequiredHSTSPolicies (configv1.Spec ingress)
    = (pre ++ R1 :: mid ++ R2 :: post)%list ->
  Forall (fun requirement => passedOver requirement route namespace) pre ->
  matched R1 route namespace ->
  matched R2 route namespace ->
  (forall c, hstsConfigFromRoute route = (Some c, None) ->
     meetsRequirements c R1 = None ->
     isRouteHSTSAllowed ingress route namespace = Allow)
  /\ (forall c reason, hstsConfigFromRoute route = (Some c, None) ->
        meetsRequirements c R1 = Some reason ->
        isRouteHSTSAllowed ingress route namespace = Deny reason)
  /\ (forall x err, hstsConfigFromRoute route = (x, Some err) ->
        isRouteHSTSAllowed ingress route namespace = Deny err).
Proof.
  intros Htls Hreqs Hpre HR1 _.
  rewrite (isRouteHSTSAllowed_requirements _ _ _ Htls), Hreqs,
    (hstsRequirementsLoop_prefix _ _ _ _ Hpre), (hstsRequirementsLoop_matched _ _ _ _ HR1).
  repeat split.
  - intros c -> ->. reflexivity.
  - intros c reason -> ->. reflexivity.
  - intros x err ->. destruct x; reflexivity.
Qed.

(** C4: on a route with Edge or Reencrypt termination, when every
    requirement of the list is examined without a selector error or a panic
    and none has both predicates matching, the route is allowed, and it is
    allowed with any other annotations too. *)
Theorem no_match_allowed ingress route namespace :
  tlsEdgeOrReencrypt route ->
  Forall (fun requirement => passedOver requirement route namespace)
    (configv1.RequiredHSTSPolicies (configv1.Spec ingress)) ->
  isRouteHSTSAllowed ingress route namespace = Allow
  /\ forall annotations,
       isRouteHSTSAllowed ingress (setAnnotations route annotations) namespace = Allow.
Proof.
  intros Htls Hall.
  assert (Hany : forall r, tlsEdgeOrReencrypt r ->
            Forall (fun requirement => passedOver requirement r namespace)
              (configv1.RequiredHSTSPolicies (configv1.Spec ingress)) ->
            isRouteHSTSAllowed ingress r namespace = Allow).
  { intros r Hr Hp. rewrite (isRouteHSTSAllowed_requirements _ _ _ Hr).
    rewrite <- (app_nil_r (configv1.RequiredHSTSPolicies _)).
    rewrite (hstsRequirementsLoop_prefix _ _ _ _ Hp). reflexivity. }
  split; [exact (Hany _ Htls Hall) |].
  intros annotations. apply Hany.
  - apply tlsEdgeOrReencrypt_setAnnotations, Htls.
  - eapply Forall_impl; [exact Hall |].
    intros requirement. apply passedOver_setAnnotations.
Qed.

(** C6: an annotation without [max-age=<digits>] after lower-casing and
    removal of the spaces does not parse: the error is "max-age must be set
    in HSTS annotation".  The absent annotation, the empty one and
    "includeSubDomains" are such annotations.  On a route with Edge or
    Reencrypt termination, when the walk reaches a requirement that matches
    (those before it examined without error and passed over), this error is
    the denial reason. *)
Theorem missing_max_age_denied ingress route namespace pre requirement post :
  (~ containsMaxAge (trimmedAnnotation route) ->
   hstsConfigFromRoute route = (None, Some errMaxAgeNotSet)
   /\ Error errMaxAgeNotSet = "max-age must be set in HSTS annotation"
   /\ (tlsEdgeOrReencrypt route ->
       configv1.RequiredHSTSPolicies (configv1.Spec ingress)
         = (pre ++ requirement :: post)%list ->
       Forall (fun earlier => passedOver earlier route namespace) pre ->
       matched requirement route namespace ->
       isRouteHSTSAllowed ingress route namespace = Deny errMaxAgeNotSet))
  /\ (routeapi.Annotations route !! hstsAnnotation = None
      \/ routeapi.Annotations route !! hstsAnnotation = Some ""
      \/ routeapi.Annotations route !! hstsAnnotation = Some "includeSubDomains" ->
      ~ containsMaxAge (trimmedAnnotation route)).
Proof.
  split.
  - intros Hno. pose proof (hstsConfigFromRoute_no_max_age _ Hno) as Hparse.
    split; [exact Hparse |]. split; [reflexivity |].
    intros Htls Hreqs Hpre Hm.
    rewrite (isRouteHSTSAllowed_requirements _ _ _ Htls), Hreqs,
      (hstsRequirementsLoop_prefix _ _ _ _ Hpre), (hstsRequirementsLoop_matched _ _ _ _ Hm),
      Hparse.
    reflexivity.
  - intros Ha. apply FindStringSubmatch_nil. unfold trimmedAnnotation.
    destruct Ha as [-> | [-> | ->]]; reflexivity.
Qed.

(** C9: a namespace selector that does not parse is a hard error.  On a
    route with Edge or Reencrypt termination, when the walk reaches a
    requirement whose selector the library rejects, the decision is the
    denial with the error of the library, whatever the patterns of this
    requirement and whatever follows it in the list. *)
Theorem bad_selector_denied ingress route namespace pre requirement post sel msg :
  tlsEdgeOrReencrypt route ->
  configv1.RequiredHSTSPolicies (configv1.Spec ingress)
    = (pre ++ requirement :: post)%list ->
  Forall (fun earlier => passedOver earlier route namespace) pre ->
  configv1.NamespaceSelector requirement = Some sel ->
  LabelSelectorAsSelector sel = inr msg ->
  isRouteHSTSAllowed ingress route namespace = Deny (labelsError msg)
  /\ Error (labelsError msg) = msg
  /\ ~ passedOver requirement route namespace.
Proof.
  intros Htls Hreqs Hpre Hsel Hmsg. split; [| split; [reflexivity |]].
  - rewrite (isRouteHSTSAllowed_requirements _ _ _ Htls), Hreqs,
      (hstsRequirementsLoop_prefix _ _ _ _ Hpre).
    exact (hstsRequirementsLoop_bad_selector _ _ _ _ _ _ Hsel Hmsg).
  - intros (a & b & Heval & _).
    rewrite (requiredNamespaceDomainMatchesRoute_bad_selector _ _ _ _ _ Hsel Hmsg) in Heval.
    discriminate.
Qed.

(** C10: a route whose TLS configuration is present with the empty string
    as termination is allowed, as with any termination other than Edge and
    Reencrypt; the denial "termination type is empty" is the decision only
    when the route has no TLS configuration. *)
Theorem empty_termination_allowed ingress route namespace :
  (forall tls, routeapi.TLS (routeapi.Spec route) = Some tls ->
     routeapi.Termination tls = "" ->
     isRouteHSTSAllowed ingress route namespace = Allow)
  /\ (isRouteHSTSAllowed ingress route namespace = Deny errTerminationEmpty <->
      routeapi.TLS (routeapi.Spec route) = None).
Proof.
  split.
  - intros tls Htls Hterm. unfold isRouteHSTSAllowed. rewrite Htls, Hterm. reflexivity.
  - split.
    + unfold isRouteHSTSAllowed.
      destruct (routeapi.TLS (routeapi.Spec route)) as [tls |]; [| reflexivity].
      cbv zeta. destruct (_ || _).
      * intros Hloop. exfalso.
        exact (hstsRequirementsLoop_not_termination _ _ _ Hloop).
      * discriminate.
    + intros Htls. unfold isRouteHSTSAllowed. rewrite Htls. reflexivity.
Qed.

End Decision.

(** ** The decisions on sample routes

    The plugin run with the reference instances of the two libraries. *)

#[local] Existing Instance RefRegexp.lib.
#[local] Existing Instance RefLabels.lib.

Lemma app_tlsEdgeOrReencrypt (value : string) : tlsEdgeOrReencrypt (Sample.app value).
Proof. eexists. split; [reflexivity |]. left. reflexivity. Defined.

Lemma orgOnly_passedOver (value : string) :
  passedOver Sample.orgOnly (Sample.app value) Sample.nsDefault.
Proof. exists true, false. split; reflexivity. Defined.

Lemma orgOnly_prefix (value : string) :
  Forall (fun requirement => passedOver requirement (Sample.app value) Sample.nsDefault)
    [Sample.orgOnly].
Proof. constructor; [apply orgOnly_passedOver | constructor]. Defined.

Lemma no_tls_denied_witness :
  isRouteHSTSAllowed (Sample.ingress [Sample.lax])
    (Sample.route None "app.example.com" (Sample.hsts "max-age=7200")) Sample.nsDefault
  = Deny (Errorf "termination type is empty, must be edge or reencrypt").
Proof.
  exact (proj1 (no_tls_denied (Sample.ingress [Sample.lax])
                  (Sample.route None "app.example.com" (Sample.hsts "max-age=7200"))
                  Sample.nsDefault eq_refl)).
Defined.

Lemma other_termination_allowed_witness :
  isRouteHSTSAllowed (Sample.ingress [Sample.minHour])
    (Sample.route (Some {| routeapi.Termination := routeapi.TLSTerminationPassthrough |})
       "app.example.com" (Sample.hsts "max-age=1"))
    Sample.nsDefault
  = Allow.
Proof.
  apply (other_termination_allowed _ _ _
           {| routeapi.Termination := routeapi.TLSTerminationPassthrough |});
    [reflexivity | discriminate | discriminate].
Defined.

Lemma first_match_selection_witness :
  let route := Sample.app "max-age=7200" in
  matched Sample.minHour route Sample.nsDefault
  /\ matched Sample.needsPreload route Sample.nsDefault
  /\ (exists c, hstsConfigFromRoute route = (Some c, None)
        /\ meetsRequirements c Sample.minHour = None
        /\ meetsRequirements c Sample.needsPreload
           = Some (Errorf "preload must be specified"))
  /\ isRouteHSTSAllowed
       (Sample.ingress [Sample.orgOnly; Sample.minHour; Sample.needsPreload])
       route Sample.nsDefault
     = Allow.
Proof.
  intros route.
  assert (H1 : matched Sample.minHour route Sample.nsDefault) by reflexivity.
  assert (H2 : matched Sample.needsPreload route Sample.nsDefault) by reflexivity.
  split; [exact H1 |]. split; [exact H2 |]. split.
  - exists (Sample.config 7200 false false). split; [| split]; reflexivity.
  - apply (proj1 (first_match_selection
                    (Sample.ingress [Sample.orgOnly; Sample.minHour; Sample.needsPreload])
                    route Sample.nsDefault [Sample.orgOnly] Sample.minHour []
                    Sample.needsPreload []
                    (app_tlsEdgeOrReencrypt _) eq_refl
                    (orgOnly_prefix _) H1 H2)
             (Sample.config 7200 false false));
      reflexivity.
Defined.

Lemma no_match_allowed_witness :
  isRouteHSTSAllowed (Sample.ingress [Sample.orgOnly]) (Sample.app "preload")
    Sample.nsDefault
  = Allow.
Proof.
  apply (proj1 (no_match_allowed (Sample.ingress [Sample.orgOnly]) (Sample.app "preload")
                  Sample.nsDefault (app_tlsEdgeOrReencrypt _)
                  (orgOnly_prefix _))).
Defined.

Lemma parse_round_trip_witness :
  hstsConfigFromRoute (Sample.app "max-age=3600; includeSubDomains; preload")
  = (Some (Sample.config 3600 true true), None).
Proof.
  apply (parse_round_trip (Sample.app "max-age=3600; includeSubDomains; preload")).
  vm_compute. reflexivity.
Defined.

Lemma missing_max_age_denied_witness :
  let route := Sample.app "includeSubDomains" in
  ~ containsMaxAge (trimmedAnnotation route)
  /\ isRouteHSTSAllowed (Sample.ingress [Sample.orgOnly; Sample.lax]) route Sample.nsDefault
     = Deny (Errorf "max-age must be set in HSTS annotation").
Proof.
  intros route.
  pose proof (missing_max_age_denied
                (Sample.ingress [Sample.orgOnly; Sample.lax]) route Sample.nsDefault
                [Sample.orgOnly] Sample.lax []) as [Hdeny Hno].
  assert (Hc : ~ containsMaxAge (trimmedAnnotation route)).
  { apply Hno. right. right. vm_compute. reflexivity. }
  split; [exact Hc |].
  apply (Hdeny Hc).
  - apply app_tlsEdgeOrReencrypt.
  - reflexivity.
  - apply orgOnly_prefix.
  - reflexivity.
Defined.

Lemma max_age_bounds_inclusive_witness :
  let requirement :=
    Sample.bounded configv1.RequirePreloadPolicy configv1.NoOpinionIncludeSubDomains in
  meetsRequirements (Sample.config 100 true false) requirement = None
  /\ meetsRequirements (Sample.config 99 true false) requirement
     = Some (Errorf "does not match minimum age 100")
  /\ meetsRequirements (Sample.config 200 true false) requirement = None
  /\ meetsRequirements (Sample.config 201 true false) requirement
     = Some (Errorf "does not match maximum age 200").
Proof.
  intros requirement.
  pose proof (fun age =>
    proj1 (max_age_bounds_inclusive (Sample.config age true false) requirement)
      eq_refl eq_refl) as Hbounds.
  split; [| split; [| split]].
  - apply (proj2 (proj1 (Hbounds 100) (or_introl eq_refl)));
      solve [reflexivity | discriminate].
  - exact (proj1 (proj2 (Hbounds 99)) eq_refl).
  - apply (proj2 (proj1 (Hbounds 200) (or_intror eq_refl)));
      solve [reflexivity | discriminate].
  - exact (proj2 (proj2 (Hbounds 201)) eq_refl).
Defined.

Lemma three_way_policies_witness :
  is_Some (meetsRequirements (Sample.config 7200 false true) Sample.needsPreload)
  /\ meetsRequirements (Sample.config 7200 true true) Sample.lax
     = meetsRequirements (Sample.config 7200 false true) Sample.lax.
Proof.
  split.
  - exact (proj1 (three_way_policies (Sample.config 7200 false true) Sample.needsPreload)
             eq_refl eq_refl).
  - apply (proj1 (proj2 (proj2 (three_way_policies (Sample.config 7200 false true)
                                    Sample.lax))) eq_refl true).
Defined.

Lemma bad_selector_denied_witness :
  exists msg,
    isRouteHSTSAllowed (Sample.ingress [Sample.orgOnly; Sample.rejected; Sample.lax])
      (Sample.app "max-age=7200") Sample.nsDefault
    = Deny (labelsError msg).
Proof.
  eexists.
  apply (bad_selector_denied
           (Sample.ingress [Sample.orgOnly; Sample.rejected; Sample.lax])
           (Sample.app "max-age=7200") Sample.nsDefault
           [Sample.orgOnly] Sample.rejected [Sample.lax] Sample.badSelector).
  - apply app_tlsEdgeOrReencrypt.
  - reflexivity.
  - apply orgOnly_prefix.
  - reflexivity.
  - vm_compute. reflexivity.
Defined.

Lemma empty_termination_allowed_witness :
  isRouteHSTSAllowed (Sample.ingress [Sample.minHour])
    (Sample.route (Some {| routeapi.Termination := "" |}) "app.example.com" [])
    Sample.nsDefault
  = Allow.
Proof.
  apply (proj1 (empty_termination_allowed (Sample.ingress [Sample.minHour])
                  (Sample.route (Some {| routeapi.Termination := "" |})
                     "app.example.com" [])
                  Sample.nsDefault)
           {| routeapi.Termination := "" |});
    reflexivity.
Defined.

(** ** Where a selector is rejected before the match, and the spelling of
    max-age *)

(** The sample selector is rejected by the reference instance, on its
    operator. *)
Lemma badSelector_rejected :
  exists msg, LabelSelectorAsSelector Sample.badSelector = inr msg.
Proof. eexists. vm_compute. reflexivity. Qed.

(** Two requirements match the route and the annotation meets the earlier
    one, yet the route is denied: the requirement in front of them has a
    selector that does not parse. *)
Lemma first_match_needs_clean_prefix :
  let route := Sample.app "max-age=7200" in
  let ingress := Sample.ingress [Sample.rejected; Sample.lax; Sample.needsPreload] in
  tlsEdgeOrReencrypt route
  /\ matched Sample.lax route Sample.nsDefault
  /\ matched Sample.needsPreload route Sample.nsDefault
  /\ (exists c, hstsConfigFromRoute route = (Some c, None)
        /\ meetsRequirements c Sample.lax = None)
  /\ isRouteHSTSAllowed ingress route Sample.nsDefault <> Allow
  /\ exists msg, isRouteHSTSAllowed ingress route Sample.nsDefault = Deny (labelsError msg).
Proof.
  intros route ingress.
  split; [apply app_tlsEdgeOrReencrypt |].
  split; [reflexivity |]. split; [reflexivity |].
  split; [exists (Sample.config 7200 false false); split; reflexivity |].
  split; [vm_compute; discriminate | eexists; vm_compute; reflexivity].
Qed.

(** No requirement of the list has both predicates matching the route, yet
    the route is denied: the selector of the one requirement does not
    parse. *)
Lemma no_match_yet_denied :
  let route := Sample.app "max-age=7200" in
  let ingress := Sample.ingress [Sample.rejected] in
  tlsEdgeOrReencrypt route
  /\ Forall (fun requirement => ~ matched requirement route Sample.nsDefault)
       (configv1.RequiredHSTSPolicies (configv1.Spec ingress))
  /\ isRouteHSTSAllowed ingress route Sample.nsDefault <> Allow
  /\ exists msg, isRouteHSTSAllowed ingress route Sample.nsDefault = Deny (labelsError msg).
Proof.
  intros route ingress.
  split; [apply app_tlsEdgeOrReencrypt |].
  split.
  - constructor; [| constructor]. unfold matched. vm_compute. discriminate.
  - split; [vm_compute; discriminate | eexists; vm_compute; reflexivity].
Qed.

(** A requirement with the bounds 100 and 200 that requires preload: max-age
    100 is within the bounds, yet the validation fails, on preload. *)
Lemma in_bounds_yet_rejected :
  let requirement :=
    Sample.bounded configv1.RequirePreloadPolicy configv1.NoOpinionIncludeSubDomains in
  let c := Sample.config 100 false false in
  configv1.SmallestMaxAge (configv1.MaxAge requirement) = Some 100
  /\ configv1.LargestMaxAge (configv1.MaxAge requirement) = Some 200
  /\ maxAge c = 100
  /\ meetsRequirements c requirement = Some (Errorf "preload must be specified")
  /\ meetsRequirements c requirement <> None.
Proof.
  intros requirement c. repeat split; try reflexivity. discriminate.
Qed.

(** The annotation spelled with [maxAge=] does not parse. *)
Lemma maxAge_spelling_rejected :
  let route := Sample.app "maxAge=3600; includeSubDomains; preload" in
  routeapi.Annotations route !! hstsAnnotation
    = Some "maxAge=3600; includeSubDomains; preload"
  /\ hstsConfigFromRoute route = (None, Some errMaxAgeNotSet)
  /\ hstsConfigFromRoute route
     <> (Some {| maxAge := 3600; preload := true; includeSubDomains := true |}, None).
Proof.
  intros route.
  split; [vm_compute; reflexivity |].
  split; [vm_compute; reflexivity | vm_compute; discriminate].
Qed.

(** The error of the parser on "includeSubDomains" does not read "max-age
    must be set"; and behind a requirement whose selector does not parse, a
    requirement that matches does not make the parse error the denial
    reason. *)
Lemma missing_max_age_other_reason :
  let route := Sample.app "includeSubDomains" in
  let ingress := Sample.ingress [Sample.rejected; Sample.lax] in
  ~ containsMaxAge (trimmedAnnotation route)
  /\ (exists err, hstsConfigFromRoute route = (None, Some err)
        /\ Error err = "max-age must be set in HSTS annotation"
        /\ Error err <> "max-age must be set")
  /\ tlsEdgeOrReencrypt route
  /\ matched Sample.lax route Sample.nsDefault
  /\ (forall err, hstsConfigFromRoute route = (None, Some err) ->
        isRouteHSTSAllowed ingress route Sample.nsDefault <> Deny err).
Proof.
  intros route ingress.
  split; [apply FindStringSubmatch_nil; vm_compute; reflexivity |].
  split.
  - exists errMaxAgeNotSet. split; [vm_compute; reflexivity |].
    split; [reflexivity | vm_compute; discriminate].
  - split; [apply app_tlsEdgeOrReencrypt |]. split; [reflexivity |].
    intros err Hparse. vm_compute in Hparse. injection Hparse as <-.
    vm_compute. discriminate.
Qed.

(** ** Further runs *)

(** The reasons of the two policies, once the bounds on max-age are met. *)
Lemma policy_reasons (c : hstsConfig) (requirement : configv1.RequiredHSTSPolicy) :
  (configv1.PreloadPolicy requirement = configv1.RequirePreloadPolicy ->
   preload c = false ->
   meetsRequirements c (dropBounds requirement)
   = Some (Errorf "preload must be specified"))
  /\ (configv1.PreloadPolicy requirement = configv1.RequireNoPreloadPolicy ->
      preload c = true ->
      meetsRequirements c (dropBounds requirement)
      = Some (Errorf "preload must not be specified"))
  /\ (configv1.PreloadPolicy requirement = configv1.NoOpinionPreloadPolicy ->
      configv1.IncludeSubDomainsPolicy requirement = configv1.RequireIncludeSubDomains ->
      includeSubDomains c = false ->
      meetsRequirements c (dropBounds requirement)
      = Some (Errorf "includeSubDomains must be specified"))
  /\ (configv1.PreloadPolicy requirement = configv1.NoOpinionPreloadPolicy ->
      configv1.IncludeSubDomainsPolicy requirement = configv1.RequireNoIncludeSubDomains ->
      includeSubDomains c = true ->
      meetsRequirements c (dropBounds requirement)
      = Some (Errorf "includeSubDomains must not be specified")).
Proof.
  unfold meetsRequirements, dropBounds, setMaxAgePolicy. cbn.
  split; [| split; [| split]].
  - intros -> ->. reflexivity.
  - intros -> ->. reflexivity.
  - intros -> -> ->. reflexivity.
  - intros -> -> ->. reflexivity.
Qed.

(** The group of a match is a run of digits that is not empty. *)
Lemma FindStringSubmatch_group (s : string) :
  reg.FindStringSubmatch s = []
  \/ exists t ch r, reg.digitsPrefix t = String ch r
       /\ reg.FindStringSubmatch s = ["max-age=" +:+ String ch r; String ch r].
Proof.
  induction s as [| a s IH]; cbn [reg.FindStringSubmatch].
  - left. reflexivity.
  - unfold reg.matchHere.
    destruct (GoStrings.HasPrefix (String a s) "max-age="); [| exact IH].
    destruct (reg.digitsPrefix (GoStrings.drop 8 (String a s))) as [| ch r] eqn:Ed;
      [exact IH |].
    right. exists (GoStrings.drop 8 (String a s)), ch, r. split; [exact Ed | reflexivity].
Qed.

Lemma digitsPrefix_head (t : string) (ch : ascii) (r : string) :
  reg.digitsPrefix t = String ch r -> isDigit ch = true.
Proof.
  destruct t as [| c t]; cbn; [discriminate |].
  destruct (isDigit c) eqn:Ec; [| discriminate]. intros [= <- _]. exact Ec.
Qed.

Lemma digitsValue_digitsPrefix (t : string) (acc : Z) :
  0 <= acc ->
  exists v, GoStrconv.digitsValue acc (reg.digitsPrefix t) = Some v /\ 0 <= v.
Proof.
  revert acc. induction t as [| c t IH]; intros acc Hacc; cbn.
  - exists acc. split; [reflexivity | exact Hacc].
  - destruct (isDigit c) eqn:Ec; cbn.
    + rewrite Ec. apply IH. unfold isDigit in Ec. unfold digitVal.
      apply andb_prop in Ec as [Hlo _]. apply N.leb_le in Hlo. lia.
    + exists acc. split; [reflexivity | exact Hacc].
Qed.

(** A successful parse gives a max-age within the int32 range: the
    conversion never wraps. *)
Lemma hstsConfigFromRoute_maxAge_range (route : routeapi.Route) (c : hstsConfig) :
  hstsConfigFromRoute route = (Some c, None) -> 0 <= maxAge c < 2 ^ 31.
Proof.
  unfold hstsConfigFromRoute. cbv zeta.
  destruct (FindStringSubmatch_group (trimmedAnnotation route))
    as [-> | (t & ch & r & Ed & ->)]; [discriminate |].
  pose proof (digitsPrefix_head _ _ _ Ed) as Hch.
  destruct (digitsValue_digitsPrefix t 0 ltac:(lia)) as (un & Hun & Hpos).
  rewrite Ed in Hun.
  unfold GoStrconv.ParseInt. cbv zeta.
  assert (Hminus : Ascii.eqb ch "-" = false).
  { destruct (Ascii.eqb_spec ch "-") as [-> |]; [discriminate | reflexivity]. }
  assert (Hplus : Ascii.eqb ch "+" = false).
  { destruct (Ascii.eqb_spec ch "+") as [-> |]; [discriminate | reflexivity]. }
  rewrite Hminus, Hplus. cbn [orb negb andb]. rewrite Hun.
  change (2 ^ (32 - 1)) with 2147483648. change (2 ^ 31) with 2147483648.
  destruct (Z.leb_spec 2147483648 un); [discriminate |].
  intros [= <-]. cbn [maxAge]. unfold int32.
  change (2 ^ 31) with 2147483648. change (2 ^ 32) with 4294967296.
  rewrite Z.mod_small by lia. lia.
Qed.

(** The two scenarios on app.example.com under the requirement of an hour
    or more for every host of example.com. *)
Example scenario_allowed :
  isRouteHSTSAllowed (Sample.ingress [Sample.minHour]) (Sample.app "max-age=7200")
    Sample.nsDefault
  = Allow.
Proof. vm_compute. reflexivity. Qed.

Example scenario_denied :
  isRouteHSTSAllowed (Sample.ingress [Sample.minHour]) (Sample.app "max-age=1800")
    Sample.nsDefault
  = Deny (Errorf "does not match minimum age 3600").
Proof. vm_compute. reflexivity. Qed.

(** A pattern that is not a regular expression makes the evaluator panic
    when its requirement is examined, and is not read on a route whose
    termination is neither Edge nor Reencrypt. *)
Example unbalanced_pattern_panics :
  (exists msg,
     isRouteHSTSAllowed (Sample.ingress [Sample.unparsable]) (Sample.app "max-age=7200")
       Sample.nsDefault
     = Panic msg)
  /\ isRouteHSTSAllowed (Sample.ingress [Sample.unparsable])
       (Sample.route (Some {| routeapi.Termination := routeapi.TLSTerminationPassthrough |})
          "app.example.com" (Sample.hsts "max-age=7200"))
       Sample.nsDefault
     = Allow.
Proof. split; [eexists |]; vm_compute; reflexivity. Qed.

(** An out-of-range max-age is the range error of strconv. *)
Example max_age_out_of_range :
  option_map Error (hstsConfigFromRoute (Sample.app "max-age=2147483648")).2
  = Some ("strconv.ParseInt: parsing " +:+ dquote +:+ "2147483648" +:+ dquote
            +:+ ": value out of range")
  /\ hstsConfigFromRoute (Sample.app "max-age=2147483647")
     = (Some (Sample.config 2147483647 false false), None).
Proof. split; vm_compute; reflexivity. Qed.

(** Only the first [max-age=] with digits is read, and the case of the
    annotation does not matter. *)
Example first_max_age_wins :
  hstsConfigFromRoute (Sample.app "Max-Age=10; PRELOAD; max-age=20; unknown")
  = (Some (Sample.config 10 true false), None).
Proof. vm_compute. reflexivity. Qed.

(** * More of the plugin *)

(** ** The parser on all annotations *)

Lemma lowerByte_idem (c : ascii) :
  GoStrings.lowerByte (GoStrings.lowerByte c) = GoStrings.lowerByte c.
Proof. destruct c as [[] [] [] [] [] [] [] []]; reflexivity. Qed.

Lemma lowerByte_eqb_space (c : ascii) :
  Ascii.eqb (GoStrings.lowerByte c) " " = Ascii.eqb c " ".
Proof. destruct c as [[] [] [] [] [] [] [] []]; reflexivity. Qed.

Lemma lowerByte_eqb_semicolon (c : ascii) :
  Ascii.eqb (GoStrings.lowerByte c) ";" = Ascii.eqb c ";".
Proof. destruct c as [[] [] [] [] [] [] [] []]; reflexivity. Qed.

Lemma ToLower_idem (s : string) : GoStrings.ToLower (GoStrings.ToLower s) = GoStrings.ToLower s.
Proof.
  induction s as [| c s IH]; [reflexivity |].
  cbn. rewrite lowerByte_idem, IH. reflexivity.
Qed.

Lemma ReplaceAll_space_ToLower (s : string) :
  GoStrings.ReplaceAll (GoStrings.ToLower s) " " ""
  = GoStrings.ToLower (GoStrings.ReplaceAll s " " "").
Proof.
  induction s as [| c s IH]; [reflexivity |].
  cbn [GoStrings.ToLower GoStrings.ReplaceAll]. rewrite lowerByte_eqb_space.
  destruct (Ascii.eqb c " ").
  - change ("" +:+ ?x) with x. exact IH.
  - cbn [GoStrings.ToLower]. rewrite IH. reflexivity.
Qed.

Lemma ReplaceAll_space_idem (s : string) :
  GoStrings.ReplaceAll (GoStrings.ReplaceAll s " " "") " " ""
  = GoStrings.ReplaceAll s " " "".
Proof.
  induction s as [| c s IH]; [reflexivity |].
  cbn [GoStrings.ReplaceAll]. destruct (Ascii.eqb c " ") eqn:Ec.
  - change ("" +:+ ?x) with x. exact IH.
  - cbn [GoStrings.ReplaceAll]. rewrite Ec, IH. reflexivity.
Qed.

Lemma trimmedAnnotation_set (route : routeapi.Route) (value : string) :
  trimmedAnnotation (setHSTSAnnotation route value)
  = GoStrings.ToLower (GoStrings.ReplaceAll value " " "").
Proof.
  unfold trimmedAnnotation, setHSTSAnnotation, setAnnotations. cbn.
  rewrite lookup_insert_eq. reflexivity.
Qed.

(** The parser reads the route through the rewritten annotation only. *)
Lemma hstsConfigFromRoute_trimmed (r1 r2 : routeapi.Route) :
  trimmedAnnotation r1 = trimmedAnnotation r2 ->
  hstsConfigFromRoute r1 = hstsConfigFromRoute r2.
Proof. intros Heq. unfold hstsConfigFromRoute. rewrite Heq. reflexivity. Qed.

(** X4: spaces and the case of letters never matter to the parser, wherever
    they stand: two annotations that differ in these only give the same
    result, and in particular an annotation parses like itself without its
    spaces and like itself in lower case. *)
Theorem parse_ignores_case_and_spaces (route : routeapi.Route) (a b : string) :
  (sameUpToCaseAndSpaces a b ->
   hstsConfigFromRoute (setHSTSAnnotation route a)
   = hstsConfigFromRoute (setHSTSAnnotation route b))
  /\ sameUpToCaseAndSpaces a (GoStrings.ReplaceAll a " " "")
  /\ sameUpToCaseAndSpaces a (GoStrings.ToLower a).
Proof.
  unfold sameUpToCaseAndSpaces. split; [| split].
  - intros Heq. apply hstsConfigFromRoute_trimmed.
    rewrite !trimmedAnnotation_set, <- !ReplaceAll_space_ToLower. exact Heq.
  - rewrite !ReplaceAll_space_ToLower, ReplaceAll_space_idem. reflexivity.
  - rewrite ToLower_idem. reflexivity.
Qed.

Lemma Split_ToLower (s : string) :
  GoStrings.Split (GoStrings.ToLower s) ";" = map GoStrings.ToLower (GoStrings.Split s ";").
Proof.
  induction s as [| c s IH]; [reflexivity |].
  cbn [GoStrings.ToLower GoStrings.Split]. rewrite lowerByte_eqb_semicolon.
  destruct (Ascii.eqb c ";").
  - rewrite IH. reflexivity.
  - rewrite IH. destruct (GoStrings.Split s ";"); reflexivity.
Qed.

(** The tokens of the rewritten annotation are in lower case. *)
Lemma annotationTokens_lower (route : routeapi.Route) (token : string) :
  In token (annotationTokens route) -> GoStrings.ToLower token = token.
Proof.
  unfold annotationTokens, trimmedAnnotation. rewrite Split_ToLower.
  intros Hin. apply in_map_iff in Hin as (t & <- & _). apply ToLower_idem.
Qed.

Lemma fold_hstsToken_preload (tokens : list string) (ret : hstsConfig) :
  preload (fold_left hstsToken tokens ret)
  = preload ret || existsb (fun token => GoStrings.EqualFold token "preload") tokens.
Proof.
  revert ret. induction tokens as [| token tokens IH]; intros ret; cbn [fold_left existsb].
  - rewrite orb_false_r. reflexivity.
  - rewrite IH. unfold hstsToken.
    destruct (GoStrings.EqualFold token "includeSubDomains"),
      (GoStrings.EqualFold token "preload"); cbn; try reflexivity;
      rewrite ?orb_true_r; reflexivity.
Qed.

Lemma fold_hstsToken_includeSubDomains (tokens : list string) (ret : hstsConfig) :
  includeSubDomains (fold_left hstsToken tokens ret)
  = includeSubDomains ret
    || existsb (fun token => GoStrings.EqualFold token "includeSubDomains") tokens.
Proof.
  revert ret. induction tokens as [| token tokens IH]; intros ret; cbn [fold_left existsb].
  - rewrite orb_false_r. reflexivity.
  - rewrite IH. unfold hstsToken.
    destruct (GoStrings.EqualFold token "includeSubDomains"),
      (GoStrings.EqualFold token "preload"); cbn; try reflexivity;
      rewrite ?orb_true_r; reflexivity.
Qed.

(** A flag of the parsed configuration, from the tokens. *)
Lemma hstsConfigFromRoute_flags (route : routeapi.Route) (c : hstsConfig) :
  hstsConfigFromRoute route = (Some c, None) ->
  preload c
  = existsb (fun token => GoStrings.EqualFold token "preload") (annotationTokens route)
  /\ includeSubDomains c
     = existsb (fun token => GoStrings.EqualFold token "includeSubDomains")
         (annotationTokens route).
Proof.
  unfold hstsConfigFromRoute, annotationTokens. cbv zeta.
  destruct (reg.FindStringSubmatch _) as [| w [| group rest]]; try discriminate.
  destruct (GoStrconv.ParseInt group 32) as [age [e |]]; [discriminate |].
  intros [= <-]. cbn [preload includeSubDomains].
  rewrite fold_hstsToken_preload, fold_hstsToken_includeSubDomains. split; reflexivity.
Qed.

Lemma existsb_EqualFold_lower (tokens : list string) (word : string) :
  (forall token, In token tokens -> GoStrings.ToLower token = token) ->
  existsb (fun token => GoStrings.EqualFold token word) tokens = true
  <-> In (GoStrings.ToLower word) tokens.
Proof.
  intros Hlow. rewrite existsb_exists. unfold GoStrings.EqualFold. split.
  - intros (token & Hin & Heq). apply String.eqb_eq in Heq.
    rewrite (Hlow _ Hin) in Heq. rewrite <- Heq. exact Hin.
  - intros Hin. exists (GoStrings.ToLower word). split; [exact Hin |].
    rewrite ToLower_idem. apply String.eqb_refl.
Qed.

(** X5: on an ASCII annotation the two flags are whole tokens.  After a
    successful parse of an annotation whose bytes are all below 128, preload
    is set exactly when one of the pieces of the rewritten annotation between
    semicolons is the word preload, and includeSubDomains exactly when one is
    the word includesubdomains; a word next to other text in its piece does
    not count. *)
Theorem flags_are_whole_tokens (route : routeapi.Route) (c : hstsConfig) :
  isASCII (hstsAnnotationOf route) = true ->
  hstsConfigFromRoute route = (Some c, None) ->
  (preload c = true <-> In "preload" (annotationTokens route))
  /\ (includeSubDomains c = true <-> In "includesubdomains" (annotationTokens route)).
Proof.
  intros _ Hparse. destruct (hstsConfigFromRoute_flags _ _ Hparse) as [-> ->].
  split.
  - exact (existsb_EqualFold_lower _ "preload" (annotationTokens_lower route)).
  - exact (existsb_EqualFold_lower _ "includeSubDomains" (annotationTokens_lower route)).
Qed.

(** ** The first max-age *)

Lemma digitsPrefix_app (d post : string) (acc v : Z) :
  GoStrconv.digitsValue acc d = Some v ->
  reg.digitsPrefix post = "" ->
  reg.digitsPrefix (d +:+ post) = d.
Proof.
  revert acc. induction d as [| ch d IH]; intros acc Hv Hpost.
  - exact Hpost.
  - rewrite append_cons. cbn in Hv |- *.
    destruct (isDigit ch); [| discriminate]. rewrite (IH _ Hv Hpost). reflexivity.
Qed.

Lemma digitsValue_head (ch : ascii) (d : string) (acc v : Z) :
  GoStrconv.digitsValue acc (String ch d) = Some v -> isDigit ch = true.
Proof. cbn. destruct (isDigit ch); [reflexivity | discriminate]. Qed.

Lemma matchHere_max_age (ch : ascii) (d post : string) (v : Z) :
  GoStrconv.digitsValue 0 (String ch d) = Some v ->
  reg.digitsPrefix post = "" ->
  reg.matchHere ("max-age=" +:+ String ch d +:+ post)
  = ["max-age=" +:+ String ch d; String ch d].
Proof.
  intros Hv Hpost. unfold reg.matchHere. rewrite HasPrefix_app.
  change (GoStrings.drop 8 ("max-age=" +:+ ?x)) with x.
  rewrite (digitsPrefix_app _ _ _ _ Hv Hpost). reflexivity.
Qed.

(** A match cannot begin in a text without [max-age=<digit>] and run into a
    [max-age=] that follows the text. *)
Lemma matchHere_before_max_age (a : ascii) (pre rest : string) :
  ~ containsMaxAge (String a pre) ->
  reg.matchHere (String a pre +:+ "max-age=" +:+ rest) = [].
Proof.
  intros Hno. apply matchHere_nil. intros d post Heq.
  destruct (isDigit d) eqn:Hd; [exfalso | reflexivity].
  rewrite append_cons in Heq.
  destruct pre as [| c1 [| c2 [| c3 [| c4 [| c5 [| c6 [| c7 [| c8 pre]]]]]]]];
    cbv [String.append] in Heq; injection Heq as; subst;
    try discriminate Hd.
  apply Hno. exists "", d, pre. split; [reflexivity | exact Hd].
Qed.

Lemma FindStringSubmatch_first (pre : string) (ch : ascii) (d post : string) (v : Z) :
  ~ containsMaxAge pre ->
  GoStrconv.digitsValue 0 (String ch d) = Some v ->
  reg.digitsPrefix post = "" ->
  reg.FindStringSubmatch (pre +:+ "max-age=" +:+ String ch d +:+ post)
  = ["max-age=" +:+ String ch d; String ch d].
Proof.
  intros Hno Hv Hpost. induction pre as [| a pre IH].
  - change ("" +:+ ?x) with x.
    pose proof (matchHere_max_age _ _ _ _ Hv Hpost) as Hm.
    change ("max-age=" +:+ String ch d +:+ post)
      with (String "m" ("ax-age=" +:+ String ch d +:+ post)) in Hm |- *.
    cbn [reg.FindStringSubmatch]. rewrite Hm. reflexivity.
  - pose proof (matchHere_before_max_age a pre (String ch d +:+ post) Hno) as Hm.
    rewrite append_cons in Hm |- *. cbn [reg.FindStringSubmatch]. rewrite Hm.
    apply IH. intros Hc. apply Hno. apply containsMaxAge_cons. right. exact Hc.
Qed.

(** [strconv.ParseInt] on a run of digits: the value, or a range error. *)
Lemma ParseInt_digits (ch : ascii) (d : string) (v : Z) :
  GoStrconv.digitsValue 0 (String ch d) = Some v ->
  GoStrconv.ParseInt (String ch d) 32
  = if 2 ^ 31 <=? v
    then (2 ^ 31 - 1, Some (numError (GoStrconv.rangeError "ParseInt" (String ch d))))
    else (v, None).
Proof.
  intros Hv. pose proof (digitsValue_head _ _ _ _ Hv) as Hch.
  unfold GoStrconv.ParseInt. cbv zeta.
  assert (Hminus : Ascii.eqb ch "-" = false).
  { destruct (Ascii.eqb_spec ch "-") as [-> |]; [discriminate | reflexivity]. }
  assert (Hplus : Ascii.eqb ch "+" = false).
  { destruct (Ascii.eqb_spec ch "+") as [-> |]; [discriminate | reflexivity]. }
  rewrite Hminus, Hplus. cbn [orb negb andb]. rewrite Hv.
  change (2 ^ (32 - 1)) with (2 ^ 31). reflexivity.
Qed.

(** X3: the first [max-age=<digits>] decides.  When the rewritten annotation
    is a text without [max-age=<digit>], then [max-age=] and a run of digits
    of value [v], then anything that does not go on with a digit (later
    occurrences of max-age included), the parse gives max-age [v] when [v] is
    at most 2147483647 and fails with the range error of strconv on these
    digits otherwise. *)
Theorem first_max_age_decides (route : routeapi.Route) (pre digits post : string) (v : Z) :
  trimmedAnnotation route = pre +:+ "max-age=" +:+ digits +:+ post ->
  ~ containsMaxAge pre ->
  digits <> "" ->
  GoStrconv.digitsValue 0 digits = Some v ->
  reg.digitsPrefix post = "" ->
  (v < 2 ^ 31 ->
   exists c, hstsConfigFromRoute route = (Some c, None) /\ maxAge c = v)
  /\ (2 ^ 31 <= v ->
      hstsConfigFromRoute route
      = (None, Some (numError (GoStrconv.rangeError "ParseInt" digits)))).
Proof.
  intros Htrim Hno Hne Hv Hpost. destruct digits as [| ch d]; [congruence |].
  unfold hstsConfigFromRoute. cbv zeta.
  rewrite Htrim. rewrite (FindStringSubmatch_first _ _ _ _ _ Hno Hv Hpost).
  rewrite (ParseInt_digits _ _ _ Hv).
  assert (Hpos : 0 <= v).
  { destruct (digitsValue_digitsPrefix (String ch d +:+ post) 0 ltac:(lia))
      as (v' & Hv' & Hpos).
    rewrite (digitsPrefix_app _ _ _ _ Hv Hpost) in Hv'. congruence. }
  split; intros Hrange.
  - destruct (Z.leb_spec (2 ^ 31) v); [lia |]. eexists. split; [reflexivity |].
    cbn [maxAge]. unfold int32. change (2 ^ 31) with 2147483648 in *.
    change (2 ^ 32) with 4294967296. rewrite Z.mod_small by lia. lia.
  - destruct (Z.leb_spec (2 ^ 31) v); [reflexivity | lia].
Qed.

Lemma digitsPrefix_cons_inv (t : string) (ch : ascii) (r : string) :
  reg.digitsPrefix t = String ch r -> exists t', t = String ch t' /\ isDigit ch = true.
Proof.
  destruct t as [| c t]; cbn; [discriminate |].
  destruct (isDigit c) eqn:Ec; [| discriminate].
  intros [= <- _]. exists t. split; [reflexivity | exact Ec].
Qed.

Lemma matchHere_cons_inv (s m : string) (ms : list string) :
  reg.matchHere s = m :: ms ->
  exists d post, s = "max-age=" +:+ String d post /\ isDigit d = true.
Proof.
  unfold reg.matchHere.
  destruct (GoStrings.HasPrefix s "max-age=") eqn:Hp; [| discriminate].
  apply HasPrefix_inv in Hp as [r ->].
  change (GoStrings.drop 8 ("max-age=" +:+ r)) with r.
  destruct (reg.digitsPrefix r) as [| ch d] eqn:Ed; [discriminate |]. intros _.
  apply digitsPrefix_cons_inv in Ed as (t' & -> & Hch). exists ch, t'. split; [reflexivity | exact Hch].
Qed.

Lemma FindStringSubmatch_cons_inv (s m : string) (ms : list string) :
  reg.FindStringSubmatch s = m :: ms -> containsMaxAge s.
Proof.
  induction s as [| a s IH]; cbn [reg.FindStringSubmatch].
  - destruct (reg.matchHere "") eqn:Em; [discriminate |]. discriminate Em.
  - destruct (reg.matchHere (String a s)) as [| m' ms'] eqn:Em.
    + intros Hs. apply containsMaxAge_cons. right. exact (IH Hs).
    + intros _. apply containsMaxAge_cons. left. exact (matchHere_cons_inv _ _ _ Em).
Qed.

(** X2: the two ways the parser fails.  A failure comes without a
    configuration, and it is either "max-age must be set", exactly when the
    rewritten annotation has no [max-age=<digit>], or the range error of
    strconv on the digits read, whose value is 2147483648 or more.  strconv
    never reports a syntax error here. *)
Theorem parse_failures (route : routeapi.Route) (x : option hstsConfig) (err : error) :
  hstsConfigFromRoute route = (x, Some err) ->
  x = None
  /\ ((err = errMaxAgeNotSet /\ ~ containsMaxAge (trimmedAnnotation route))
      \/ (exists digits v,
            err = numError (GoStrconv.rangeError "ParseInt" digits)
            /\ GoStrconv.digitsValue 0 digits = Some v /\ 2 ^ 31 <= v
            /\ containsMaxAge (trimmedAnnotation route))).
Proof.
  unfold hstsConfigFromRoute. cbv zeta.
  destruct (FindStringSubmatch_group (trimmedAnnotation route))
    as [Hnil | (t & ch & r & Ed & Hfind)].
  - rewrite Hnil. intros [= <- <-]. split; [reflexivity |]. left.
    split; [reflexivity | apply FindStringSubmatch_nil, Hnil].
  - rewrite Hfind.
    destruct (digitsValue_digitsPrefix t 0 ltac:(lia)) as (v & Hv & _).
    rewrite Ed in Hv. rewrite (ParseInt_digits _ _ _ Hv).
    destruct (Z.leb_spec (2 ^ 31) v) as [Hbig |]; [| discriminate].
    intros [= <- <-]. split; [reflexivity |]. right.
    exists (String ch r), v. repeat split; try assumption.
    exact (FindStringSubmatch_cons_inv _ _ _ Hfind).
Qed.

(** ** The validator on all requirements *)

Lemma orElse_None (a b : option error) : (a orelse b) = None <-> a = None /\ b = None.
Proof. destruct a, b; cbn; split; try tauto; try discriminate; intros [? ?]; discriminate. Qed.

Lemma largest_check (bound : option Z) (age : Z) (reason : Z -> error) :
  match bound with
  | Some largest => if (0 <=? largest) && (largest <? age) then Some (reason largest) else None
  | None => None
  end = None
  <-> (forall largest, bound = Some largest -> 0 <= largest -> age <= largest).
Proof.
  destruct bound as [l |]; [| split; [intros _ l [=] | reflexivity]].
  destruct (Z.leb_spec 0 l), (Z.ltb_spec l age); cbn; split;
    try discriminate; try reflexivity.
  - intros Hall. specialize (Hall l eq_refl). lia.
  - intros _ l' [= <-]. lia.
  - intros _ l' [= <-]. lia.
  - intros _ l' [= <-]. lia.
Qed.

Lemma smallest_check (bound : option Z) (age : Z) (reason : Z -> error) :
  match bound with
  | Some smallest =>
      if (0 <=? smallest) && (age <? smallest) then Some (reason smallest) else None
  | None => None
  end = None
  <-> (forall smallest, bound = Some smallest -> 0 <= smallest -> smallest <= age).
Proof.
  destruct bound as [m |]; [| split; [intros _ m [=] | reflexivity]].
  destruct (Z.leb_spec 0 m), (Z.ltb_spec age m); cbn; split;
    try discriminate; try reflexivity.
  - intros Hall. specialize (Hall m eq_refl). lia.
  - intros _ m' [= <-]. lia.
  - intros _ m' [= <-]. lia.
  - intros _ m' [= <-]. lia.
Qed.

Lemma policy_check (p noOpinion require requireNo : string) (flag : bool) (e1 e2 : error) :
  noOpinion <> require -> noOpinion <> requireNo -> require <> requireNo ->
  (if String.eqb p noOpinion then None
   else if String.eqb p require then if negb flag then Some e1 else None
   else if String.eqb p requireNo then if flag then Some e2 else None
   else None) = None
  <-> (p = require -> flag = true) /\ (p = requireNo -> flag = false).
Proof.
  intros H1 H2 H3.
  destruct (String.eqb_spec p noOpinion) as [-> | Hn].
  { split; [intros _; split; congruence | reflexivity]. }
  destruct (String.eqb_spec p require) as [-> | Hr].
  { destruct flag; cbn; split; try discriminate; try reflexivity.
    - intros _. split; [reflexivity | congruence].
    - intros [H _]. specialize (H eq_refl). discriminate. }
  destruct (String.eqb_spec p requireNo) as [-> | Ho].
  { destruct flag; cbn; split; try discriminate; try reflexivity.
    - intros [_ H]. specialize (H eq_refl). discriminate.
    - intros _. split; [congruence | reflexivity]. }
  split; [intros _; split; congruence | reflexivity].
Qed.

(** X6: the validator accepts exactly the compliant configurations: it
    returns nil if and only if max-age is within every bound that is set and
    not negative, and each flag is as a Require or RequireNo policy wants
    it. *)
Theorem meetsRequirements_iff_compliant (c : hstsConfig)
    (requirement : configv1.RequiredHSTSPolicy) :
  meetsRequirements c requirement = None <-> compliant c requirement.
Proof.
  unfold meetsRequirements, compliant. cbv zeta.
  rewrite !orElse_None, largest_check, smallest_check.
  rewrite !policy_check by discriminate. tauto.
Qed.

Lemma largest_check_Some (bound : option Z) (age : Z) (reason : Z -> error) (e : error) :
  match bound with
  | Some largest => if (0 <=? largest) && (largest <? age) then Some (reason largest) else None
  | None => None
  end = Some e ->
  exists largest, bound = Some largest /\ 0 <= largest < age /\ e = reason largest.
Proof.
  destruct bound as [l |]; [| discriminate].
  destruct (Z.leb_spec 0 l), (Z.ltb_spec l age); cbn; try discriminate.
  intros [= <-]. exists l. repeat split; [assumption | assumption].
Qed.

Lemma smallest_check_Some (bound : option Z) (age : Z) (reason : Z -> error) (e : error) :
  match bound with
  | Some smallest =>
      if (0 <=? smallest) && (age <? smallest) then Some (reason smallest) else None
  | None => None
  end = Some e ->
  exists smallest, bound = Some smallest /\ 0 <= smallest /\ age < smallest
    /\ e = reason smallest.
Proof.
  destruct bound as [m |]; [| discriminate].
  destruct (Z.leb_spec 0 m), (Z.ltb_spec age m); cbn; try discriminate.
  intros [= <-]. exists m. repeat split; assumption.
Qed.

Lemma policy_check_Some (p noOpinion require requireNo : string) (flag : bool)
    (e1 e2 e : error) :
  (if String.eqb p noOpinion then None
   else if String.eqb p require then if negb flag then Some e1 else None
   else if String.eqb p requireNo then if flag then Some e2 else None
   else None) = Some e ->
  (p = require /\ flag = false /\ e = e1) \/ (p = requireNo /\ flag = true /\ e = e2).
Proof.
  destruct (String.eqb_spec p noOpinion); [discriminate |].
  destruct (String.eqb_spec p require) as [-> |].
  { destruct flag; cbn; [discriminate |]. intros [= <-]. left. auto. }
  destruct (String.eqb_spec p requireNo) as [-> |]; [| discriminate].
  destruct flag; cbn; [| discriminate]. intros [= <-]. right. auto.
Qed.

Lemma orElse_Some (a b : option error) (e : error) :
  (a orelse b) = Some e -> a = Some e \/ (a = None /\ b = Some e).
Proof. destruct a; cbn; [intros [= <-]; left; reflexivity | intros ->; right; auto]. Qed.

(** X7: the reason of a rejection is the first check that fails, in the
    order largest, smallest, preload, includeSubDomains, and it is true of the
    configuration: the maximum reason names a largest bound that max-age
    exceeds; the minimum reason comes only when the largest bound holds; a
    preload reason only when both bounds hold; an includeSubDomains reason
    only when the bounds and the preload policy hold. *)
Theorem meetsRequirements_first_failure (c : hstsConfig)
    (requirement : configv1.RequiredHSTSPolicy) (reason : error) :
  let age := configv1.MaxAge requirement in
  let largestHolds :=
    forall largest, configv1.LargestMaxAge age = Some largest ->
      0 <= largest -> maxAge c <= largest in
  let smallestHolds :=
    forall smallest, configv1.SmallestMaxAge age = Some smallest ->
      0 <= smallest -> smallest <= maxAge c in
  let preloadHolds :=
    (configv1.PreloadPolicy requirement = configv1.RequirePreloadPolicy -> preload c = true)
    /\ (configv1.PreloadPolicy requirement = configv1.RequireNoPreloadPolicy ->
        preload c = false) in
  meetsRequirements c requirement = Some reason ->
  (exists largest,
     configv1.LargestMaxAge age = Some largest /\ 0 <= largest < maxAge c
     /\ reason = Errorf ("does not match maximum age " +:+ fmt_d largest))
  \/ (largestHolds
      /\ exists smallest,
           configv1.SmallestMaxAge age = Some smallest
           /\ 0 <= smallest /\ maxAge c < smallest
           /\ reason = Errorf ("does not match minimum age " +:+ fmt_d smallest))
  \/ (largestHolds /\ smallestHolds
      /\ ((configv1.PreloadPolicy requirement = configv1.RequirePreloadPolicy
           /\ preload c = false /\ reason = Errorf "preload must be specified")
          \/ (configv1.PreloadPolicy requirement = configv1.RequireNoPreloadPolicy
              /\ preload c = true /\ reason = Errorf "preload must not be specified")))
  \/ (largestHolds /\ smallestHolds /\ preloadHolds
      /\ ((configv1.IncludeSubDomainsPolicy requirement = configv1.RequireIncludeSubDomains
           /\ includeSubDomains c = false
           /\ reason = Errorf "includeSubDomains must be specified")
          \/ (configv1.IncludeSubDomainsPolicy requirement
              = configv1.RequireNoIncludeSubDomains
              /\ includeSubDomains c = true
              /\ reason = Errorf "includeSubDomains must not be specified"))).
Proof.
  intros age largestHolds smallestHolds preloadHolds.
  unfold meetsRequirements. cbv zeta. fold age.
  intros H. apply orElse_Some in H as [H | [H1 H]].
  { left. apply largest_check_Some in H as (l & Hl & Hr & ->). eauto. }
  pose proof (proj1 (largest_check _ _ _) H1) as Hmax. clear H1. right.
  apply orElse_Some in H as [H | [H2 H]].
  { left. split; [exact Hmax |].
    apply smallest_check_Some in H as (m & Hm & H0 & Hlt & ->). eauto 6. }
  pose proof (proj1 (smallest_check _ _ _) H2) as Hmin. clear H2. right.
  apply orElse_Some in H as [H | [H3 H]].
  { left. split; [exact Hmax |]. split; [exact Hmin |].
    apply policy_check_Some in H. exact H. }
  pose proof (proj1 (policy_check (configv1.PreloadPolicy requirement)
                       configv1.NoOpinionPreloadPolicy configv1.RequirePreloadPolicy
                       configv1.RequireNoPreloadPolicy (preload c) _ _
                       ltac:(discriminate) ltac:(discriminate) ltac:(discriminate)) H3)
    as Hpre.
  clear H3. right.
  split; [exact Hmax |]. split; [exact Hmin |]. split; [exact Hpre |].
  apply policy_check_Some in H. exact H.
Qed.

(** X8: bounds that contradict each other reject every configuration: with
    a largest bound that is not negative and a smallest bound above it, the
    validator fails whatever the annotation says. *)
Theorem contradictory_bounds_reject_all (c : hstsConfig)
    (requirement : configv1.RequiredHSTSPolicy) (smallest largest : Z) :
  configv1.LargestMaxAge (configv1.MaxAge requirement) = Some largest ->
  configv1.SmallestMaxAge (configv1.MaxAge requirement) = Some smallest ->
  0 <= largest < smallest ->
  is_Some (meetsRequirements c requirement).
Proof.
  intros Hl Hs Hlt.
  destruct (meetsRequirements c requirement) as [e |] eqn:Hm; [eexists; reflexivity |].
  apply meetsRequirements_iff_compliant in Hm as (Hmax & Hmin & _).
  specialize (Hmax _ Hl). specialize (Hmin _ Hs). lia.
Qed.

(** X9: a policy string that is neither the Require nor the RequireNo value
    constrains nothing, the empty string included: the validator decides as
    under NoOpinion. *)
Theorem unknown_policy_is_no_opinion (c : hstsConfig)
    (requirement : configv1.RequiredHSTSPolicy) :
  (configv1.PreloadPolicy requirement <> configv1.RequirePreloadPolicy ->
   configv1.PreloadPolicy requirement <> configv1.RequireNoPreloadPolicy ->
   meetsRequirements c requirement
   = meetsRequirements c
       (setPolicies requirement configv1.NoOpinionPreloadPolicy
          (configv1.IncludeSubDomainsPolicy requirement)))
  /\ (configv1.IncludeSubDomainsPolicy requirement <> configv1.RequireIncludeSubDomains ->
      configv1.IncludeSubDomainsPolicy requirement <> configv1.RequireNoIncludeSubDomains ->
      meetsRequirements c requirement
      = meetsRequirements c
          (setPolicies requirement (configv1.PreloadPolicy requirement)
             configv1.NoOpinionIncludeSubDomains)).
Proof.
  unfold meetsRequirements, setPolicies. cbn. split; intros H1 H2.
  - apply String.eqb_neq in H1, H2. rewrite H1, H2.
    destruct (String.eqb _ configv1.NoOpinionPreloadPolicy); reflexivity.
  - apply String.eqb_neq in H1, H2. rewrite H1, H2.
    destruct (String.eqb (configv1.IncludeSubDomainsPolicy requirement)
                configv1.NoOpinionIncludeSubDomains); reflexivity.
Qed.

(** ** The matchers on all patterns and hosts *)

Section MatcherProperties.

Context {re : RegexpLib} {lb : LabelsLib}.

Implicit Types (requirement : configv1.RequiredHSTSPolicy) (route : routeapi.Route)
  (namespace : corev1.Namespace) (ingress : configv1.Ingress).

Lemma matchesDomain_cons (pattern : string) (rest domains : list string) :
  matchesDomain (pattern :: rest) domains
  = match Compile (anchored pattern) with
    | Some compiled =>
        if existsb (MatchString compiled) domains then Done true
        else matchesDomain rest domains
    | None => Panic (compilePanic pattern)
    end.
Proof.
  cbn [matchesDomain]. unfold MustCompile, anchored, compilePanic.
  destruct (Compile _); reflexivity.
Qed.

Lemma patternMatches_true (domains : list string) (pattern : string) :
  patternMatches domains pattern = true <->
  exists compiled domain,
    Compile (anchored pattern) = Some compiled
    /\ In domain domains /\ MatchString compiled domain = true.
Proof.
  unfold patternMatches. destruct (Compile (anchored pattern)) as [compiled |].
  - rewrite existsb_exists. split.
    + intros (d & Hin & Hm). exists compiled, d. auto.
    + intros (c' & d & [= <-] & Hin & Hm). exists d. auto.
  - split; [discriminate | intros (c' & d & [=] & _)].
Qed.

(** X10: when the patterns compile, [matchesDomain] returns without a panic
    and says whether some pattern, anchored at both ends, matches some host;
    an empty list of patterns matches nothing. *)
Theorem matchesDomain_compiled (patterns domains : list string) :
  Forall compiles patterns ->
  matchesDomain patterns domains = Done (existsb (patternMatches domains) patterns)
  /\ (matchesDomain patterns domains = Done true <->
      exists pattern compiled domain,
        In pattern patterns /\ Compile (anchored pattern) = Some compiled
        /\ In domain domains /\ MatchString compiled domain = true).
Proof.
  intros Hall.
  assert (Heq : matchesDomain patterns domains
                = Done (existsb (patternMatches domains) patterns)).
  { induction Hall as [| pattern rest [compiled Hc] _ IH]; [reflexivity |].
    rewrite matchesDomain_cons. cbn [existsb]. unfold patternMatches at 1.
    rewrite Hc. destruct (existsb (MatchString compiled) domains); [reflexivity | exact IH]. }
  split; [exact Heq |]. rewrite Heq. split.
  - intros [= Hex]. apply existsb_exists in Hex as (pattern & Hin & Hm).
    apply patternMatches_true in Hm as (compiled & d & Hc & Hd & Hm).
    exists pattern, compiled, d. auto.
  - intros (pattern & compiled & d & Hin & Hc & Hd & Hm). f_equal.
    apply existsb_exists. exists pattern. split; [exact Hin |].
    apply patternMatches_true. exists compiled, d. auto.
Qed.

(** X11: [matchesDomain] panics exactly when it reaches a pattern that does
    not compile: the patterns before it compile and match no host.  A
    pattern that does not compile behind one that matches is never
    compiled. *)
Theorem matchesDomain_panics_iff (patterns domains : list string) (msg : string) :
  matchesDomain patterns domains = Panic msg <->
  exists before pattern after,
    patterns = (before ++ pattern :: after)%list
    /\ Forall compiles before
    /\ existsb (patternMatches domains) before = false
    /\ Compile (anchored pattern) = None
    /\ msg = compilePanic pattern.
Proof.
  revert msg. induction patterns as [| p rest IH]; intros msg.
  - split; [discriminate |]. intros (before & pattern & after & Heq & _).
    destruct before; discriminate.
  - rewrite matchesDomain_cons. destruct (Compile (anchored p)) as [compiled |] eqn:Hc.
    + destruct (existsb (MatchString compiled) domains) eqn:Hm.
      * split; [discriminate |].
        intros (before & pattern & after & Heq & _ & Hno & Hnone & _).
        destruct before as [| b before]; cbn in Heq; injection Heq as <- _.
        -- congruence.
        -- cbn in Hno. unfold patternMatches in Hno at 1. rewrite Hc, Hm in Hno.
           discriminate.
      * rewrite IH. split.
        -- intros (before & pattern & after & -> & Hall & Hno & Hnone & ->).
           exists (p :: before), pattern, after. repeat split; try assumption.
           ++ constructor; [eexists; exact Hc | exact Hall].
           ++ cbn. unfold patternMatches at 1. rewrite Hc, Hm. exact Hno.
        -- intros (before & pattern & after & Heq & Hall & Hno & Hnone & ->).
           destruct before as [| b before]; cbn in Heq; injection Heq as <- ->.
           ++ congruence.
           ++ exists before, pattern, after. repeat split; try assumption.
              ** inversion Hall; assumption.
              ** cbn in Hno. apply orb_false_elim in Hno as [_ Hno]. exact Hno.
    + split.
      * intros [= <-]. exists [], p, rest. repeat split; [constructor | assumption].
      * intros (before & pattern & after & Heq & Hall & _ & Hnone & ->).
        destruct before as [| b before]; cbn in Heq; injection Heq as <- _.
        -- reflexivity.
        -- inversion Hall as [| ? ? [c' Hc'] _]. congruence.
Qed.

(** The selector of the requirement is absent, or it parses and selects the
    labels of the namespace. *)
Lemma matchesNamespaceSelector_true (nsSelector : option metav1.LabelSelector) namespace :
  matchesNamespaceSelector nsSelector namespace = (true, None) <->
  nsSelector = None
  \/ exists sel selector,
       nsSelector = Some sel /\ LabelSelectorAsSelector sel = inl selector
       /\ Matches selector (corev1.Labels namespace) = true.
Proof.
  unfold matchesNamespaceSelector, getParsedNamespaceSelector.
  destruct nsSelector as [sel |].
  - destruct (LabelSelectorAsSelector sel) as [selector | msg] eqn:Hs.
    + split.
      * intros [= Hm]. right. exists sel, selector. auto.
      * intros [[=] | (sel' & selector' & [= <-] & Hs' & Hm)].
        rewrite Hs in Hs'. injection Hs' as <-. rewrite Hm. reflexivity.
    + split; [discriminate |].
      intros [[=] | (sel' & selector' & [= <-] & Hs' & _)]. congruence.
  - split; [intros _; left; reflexivity | reflexivity].
Qed.

(** X12: when the patterns of a requirement compile, the requirement matches
    a route exactly when its selector is absent or parses and selects the
    labels of the namespace, and one of its patterns matches the host of the
    spec or a host of the status of the route. *)
Theorem matched_iff requirement route namespace :
  Forall compiles (configv1.DomainPatterns requirement) ->
  matched requirement route namespace <->
  (configv1.NamespaceSelector requirement = None
   \/ exists sel selector,
        configv1.NamespaceSelector requirement = Some sel
        /\ LabelSelectorAsSelector sel = inl selector
        /\ Matches selector (corev1.Labels namespace) = true)
  /\ exists pattern compiled domain,
       In pattern (configv1.DomainPatterns requirement)
       /\ Compile (anchored pattern) = Some compiled
       /\ In domain (routeDomains route)
       /\ MatchString compiled domain = true.
Proof.
  intros Hall. unfold matched.
  rewrite requiredNamespaceDomainMatchesRoute_ok, matchesNamespaceSelector_true.
  fold (routeDomains route).
  rewrite (proj2 (matchesDomain_compiled _ (routeDomains route) Hall)). reflexivity.
Qed.

End MatcherProperties.

(** ** The evaluator on all lists of requirements *)

Section EvaluatorProperties.

Context {re : RegexpLib} {lb : LabelsLib}.

Implicit Types (requirement : configv1.RequiredHSTSPolicy) (route : routeapi.Route)
  (namespace : corev1.Namespace) (ingress : configv1.Ingress).

(** The decision, from the walk. *)
Lemma isRouteHSTSAllowed_walk requirements route namespace :
  isRouteHSTSAllowed (ingressWith requirements) route namespace
  = match routeapi.TLS (routeapi.Spec route) with
    | Some tls =>
        if String.eqb (routeapi.Termination tls) routeapi.TLSTerminationEdge
           || String.eqb (routeapi.Termination tls) routeapi.TLSTerminationReencrypt
        then hstsRequirementsLoop requirements route namespace
        else Allow
    | None => Deny errTerminationEmpty
    end.
Proof. reflexivity. Qed.

Lemma hstsRequirementsLoop_remove pre requirement post route namespace :
  passedOver requirement route namespace ->
  hstsRequirementsLoop (pre ++ requirement :: post)%list route namespace
  = hstsRequirementsLoop (pre ++ post)%list route namespace.
Proof.
  intros Hp. induction pre as [| r pre IH].
  - apply hstsRequirementsLoop_passedOver, Hp.
  - rewrite <- !app_comm_cons. cbn [hstsRequirementsLoop]. rewrite IH. reflexivity.
Qed.

(** A requirement without patterns, whose selector is absent or parses, is
    passed over on every route. *)
Lemma no_patterns_passedOver requirement route namespace :
  configv1.DomainPatterns requirement = [] ->
  (configv1.NamespaceSelector requirement = None
   \/ exists sel selector,
        configv1.NamespaceSelector requirement = Some sel
        /\ LabelSelectorAsSelector sel = inl selector) ->
  passedOver requirement route namespace.
Proof.
  intros Hnil Hsel. unfold passedOver, requiredNamespaceDomainMatchesRoute,
    matchesNamespaceSelector, getParsedNamespaceSelector.
  rewrite Hnil. destruct Hsel as [-> | (sel & selector & -> & ->)].
  - exists true, false. split; reflexivity.
  - eexists _, false. split; [reflexivity | apply andb_false_r].
Qed.

(** X13: a requirement that is passed over on a route can be taken out of
    the list, wherever it stands, without a change of the decision; a
    requirement without domain patterns whose selector is absent or parses is
    such a requirement on every route, so it never constrains anything. *)
Theorem passed_over_requirement_is_inert pre requirement post route namespace :
  (passedOver requirement route namespace ->
   isRouteHSTSAllowed (ingressWith (pre ++ requirement :: post)%list) route namespace
   = isRouteHSTSAllowed (ingressWith (pre ++ post)%list) route namespace)
  /\ (configv1.DomainPatterns requirement = [] ->
      (configv1.NamespaceSelector requirement = None
       \/ exists sel selector,
            configv1.NamespaceSelector requirement = Some sel
            /\ LabelSelectorAsSelector sel = inl selector) ->
      isRouteHSTSAllowed (ingressWith (pre ++ requirement :: post)%list) route namespace
      = isRouteHSTSAllowed (ingressWith (pre ++ post)%list) route namespace).
Proof.
  assert (Hrem : passedOver requirement route namespace ->
    isRouteHSTSAllowed (ingressWith (pre ++ requirement :: post)%list) route namespace
    = isRouteHSTSAllowed (ingressWith (pre ++ post)%list) route namespace).
  { intros Hp. rewrite !isRouteHSTSAllowed_walk.
    rewrite (hstsRequirementsLoop_remove _ _ _ _ _ Hp). reflexivity. }
  split; [exact Hrem |].
  intros Hnil Hsel. apply Hrem, no_patterns_passedOver; assumption.
Qed.

(** X14: the walk ends at the first requirement that is not passed over,
    whether it matches, has a selector that does not parse, or panics: what
    follows it in the list is never read, so the decision is the same with
    any other tail. *)
Theorem walk_stops_at_first_hit pre requirement (post post' : list configv1.RequiredHSTSPolicy)
    route namespace :
  Forall (fun earlier => passedOver earlier route namespace) pre ->
  ~ passedOver requirement route namespace ->
  isRouteHSTSAllowed (ingressWith (pre ++ requirement :: post)%list) route namespace
  = isRouteHSTSAllowed (ingressWith (pre ++ requirement :: post')%list) route namespace.
Proof.
  intros Hpre Hnot. rewrite !isRouteHSTSAllowed_walk.
  rewrite !(hstsRequirementsLoop_prefix _ _ _ _ Hpre).
  cbn [hstsRequirementsLoop].
  destruct (requiredNamespaceDomainMatchesRoute requirement route namespace)
    as [[[a b] [err |]] | msg] eqn:Heval; cbn; try reflexivity.
  destruct (a && b) eqn:Hab; cbn; [reflexivity |].
  exfalso. apply Hnot. exists a, b. split; [exact Heval | exact Hab].
Qed.

Lemma requiredNamespaceDomainMatchesRoute_panic requirement route namespace msg :
  requiredNamespaceDomainMatchesRoute requirement route namespace = Panic msg ->
  exists pattern,
    In pattern (configv1.DomainPatterns requirement)
    /\ Compile (anchored pattern) = None /\ msg = compilePanic pattern.
Proof.
  unfold requiredNamespaceDomainMatchesRoute.
  destruct (matchesNamespaceSelector _ _) as [a [err |]]; [discriminate |].
  destruct (matchesDomain _ _) as [b | msg'] eqn:Hm; cbn; [discriminate |].
  intros [= <-].
  apply matchesDomain_panics_iff in Hm
    as (before & pattern & after & Heq & _ & _ & Hnone & ->).
  exists pattern. rewrite Heq. split; [| auto].
  apply in_or_app. right. left. reflexivity.
Qed.

Lemma hstsRequirementsLoop_panic requirements route namespace msg :
  hstsRequirementsLoop requirements route namespace = Panic msg ->
  exists requirement pattern,
    In requirement requirements
    /\ In pattern (configv1.DomainPatterns requirement)
    /\ Compile (anchored pattern) = None /\ msg = compilePanic pattern.
Proof.
  induction requirements as [| requirement rest IH]; [discriminate |].
  cbn [hstsRequirementsLoop].
  destruct (requiredNamespaceDomainMatchesRoute requirement route namespace)
    as [[[a b] [err |]] | msg'] eqn:Heval; cbn.
  - discriminate.
  - destruct (negb (a && b)).
    + intros Hrest. destruct (IH Hrest) as (r & p & Hin & Hp).
      exists r, p. split; [right; exact Hin | exact Hp].
    + destruct (hstsConfigFromRoute route) as [[c |] [err |]]; try discriminate.
      destruct (meetsRequirements c requirement); discriminate.
  - intros [= <-].
    apply requiredNamespaceDomainMatchesRoute_panic in Heval as (p & Hp).
    exists requirement, p. split; [left; reflexivity | exact Hp].
Qed.

(** X15: the evaluator panics only on a domain pattern that is not a regular
    expression: a panic happens on a route with Edge or Reencrypt
    termination, and its message names a pattern of the list that does not
    compile.  When every pattern of every requirement compiles, the
    evaluator returns a decision on every route. *)
Theorem panics_only_on_bad_pattern ingress route namespace :
  (forall msg,
     isRouteHSTSAllowed ingress route namespace = Panic msg ->
     tlsEdgeOrReencrypt route
     /\ exists requirement pattern,
          In requirement (configv1.RequiredHSTSPolicies (configv1.Spec ingress))
          /\ In pattern (configv1.DomainPatterns requirement)
          /\ Compile (anchored pattern) = None /\ msg = compilePanic pattern)
  /\ (allPatternsCompile (configv1.RequiredHSTSPolicies (configv1.Spec ingress)) ->
      exists decision, isRouteHSTSAllowed ingress route namespace = Done decision).
Proof.
  assert (Hpanic : forall msg,
     isRouteHSTSAllowed ingress route namespace = Panic msg ->
     tlsEdgeOrReencrypt route
     /\ exists requirement pattern,
          In requirement (configv1.RequiredHSTSPolicies (configv1.Spec ingress))
          /\ In pattern (configv1.DomainPatterns requirement)
          /\ Compile (anchored pattern) = None /\ msg = compilePanic pattern).
  { intros msg. unfold isRouteHSTSAllowed.
    destruct (routeapi.TLS (routeapi.Spec route)) as [tls |] eqn:Htls; [| discriminate].
    cbv zeta.
    destruct (String.eqb_spec (routeapi.Termination tls) routeapi.TLSTerminationEdge)
      as [He | He];
      [| destruct (String.eqb_spec (routeapi.Termination tls)
                     routeapi.TLSTerminationReencrypt) as [Hr | Hr]];
      cbn [orb]; try discriminate;
      intros Hloop; (split; [exists tls; split; [exact Htls | tauto] |
                             exact (hstsRequirementsLoop_panic _ _ _ _ Hloop)]). }
  split; [exact Hpanic |].
  intros Hall.
  destruct (isRouteHSTSAllowed ingress route namespace) as [decision | msg] eqn:Hr;
    [exists decision; reflexivity |].
  exfalso. destruct (Hpanic msg eq_refl) as (_ & r & p & Hin & Hp & Hnone & _).
  unfold allPatternsCompile in Hall. rewrite Forall_forall in Hall.
  specialize (Hall r ltac:(apply list_elem_of_In; exact Hin)).
  rewrite Forall_forall in Hall.
  destruct (Hall p ltac:(apply list_elem_of_In; exact Hp)) as [c Hc]. congruence.
Qed.

Lemma hstsRequirementsLoop_deny requirements route namespace reason :
  hstsRequirementsLoop requirements route namespace = Deny reason ->
  (exists requirement sel msg,
     In requirement requirements
     /\ configv1.NamespaceSelector requirement = Some sel
     /\ LabelSelectorAsSelector sel = inr msg /\ reason = labelsError msg)
  \/ ((exists requirement, In requirement requirements
         /\ matched requirement route namespace)
      /\ exists x, hstsConfigFromRoute route = (x, Some reason))
  \/ (exists requirement c,
        In requirement requirements /\ matched requirement route namespace
        /\ hstsConfigFromRoute route = (Some c, None)
        /\ meetsRequirements c requirement = Some reason).
Proof.
  unfold Deny. induction requirements as [| requirement rest IH]; [discriminate |].
  cbn [hstsRequirementsLoop].
  destruct (requiredNamespaceDomainMatchesRoute requirement route namespace)
    as [[[a b] [err |]] | msg'] eqn:Heval; cbn; [| | discriminate].
  - intros [= <-]. left.
    apply requiredNamespaceDomainMatchesRoute_error in Heval as (sel & msg & Hsel & Hm & ->).
    exists requirement, sel, msg. split; [left; reflexivity | auto].
  - destruct (a && b) eqn:Hab; cbn.
    + apply andb_prop in Hab as [-> ->].
      destruct (hstsConfigFromRoute route) as [[c |] [err |]] eqn:Hparse.
      * intros [= <-]. right. left.
        split; [exists requirement; split; [left; reflexivity | exact Heval] | eauto].
      * destruct (meetsRequirements c requirement) as [e |] eqn:Hm; [| discriminate].
        intros [= <-]. right. right. exists requirement, c.
        split; [left; reflexivity | auto].
      * intros [= <-]. right. left.
        split; [exists requirement; split; [left; reflexivity | exact Heval] | eauto].
      * discriminate.
    + intros Hrest. destruct (IH Hrest)
        as [(r & sel & msg & Hin & H) | [[(r & Hin & Hm) Hp] | (r & c & Hin & H)]].
      * left. exists r, sel, msg. split; [right; exact Hin | exact H].
      * right. left. split; [exists r; split; [right; exact Hin | exact Hm] | exact Hp].
      * right. right. exists r, c. split; [right; exact Hin | exact H].
Qed.

(** X16: every denial has one of four causes.  Either the route has no TLS
    configuration; or a requirement of the list has a selector that the
    library rejects, and the reason is its error; or a requirement of the
    list matches the route and the annotation does not parse, the reason
    being the parse error; or a requirement of the list matches the route
    and the parsed annotation fails its validation, with that reason.  A
    route is never denied on the constraints of a requirement that does not
    match it. *)
Theorem denial_causes ingress route namespace reason :
  isRouteHSTSAllowed ingress route namespace = Deny reason ->
  let requirements := configv1.RequiredHSTSPolicies (configv1.Spec ingress) in
  (routeapi.TLS (routeapi.Spec route) = None /\ reason = errTerminationEmpty)
  \/ (tlsEdgeOrReencrypt route
      /\ ((exists requirement sel msg,
             In requirement requirements
             /\ configv1.NamespaceSelector requirement = Some sel
             /\ LabelSelectorAsSelector sel = inr msg /\ reason = labelsError msg)
          \/ ((exists requirement, In requirement requirements
                 /\ matched requirement route namespace)
              /\ exists x, hstsConfigFromRoute route = (x, Some reason))
          \/ (exists requirement c,
                In requirement requirements /\ matched requirement route namespace
                /\ hstsConfigFromRoute route = (Some c, None)
                /\ meetsRequirements c requirement = Some reason))).
Proof.
  intros Hdeny requirements. unfold isRouteHSTSAllowed in Hdeny.
  destruct (routeapi.TLS (routeapi.Spec route)) as [tls |] eqn:Htls.
  - right. cbv zeta in Hdeny.
    destruct (String.eqb_spec (routeapi.Termination tls) routeapi.TLSTerminationEdge)
      as [He | He];
      [| destruct (String.eqb_spec (routeapi.Termination tls)
                     routeapi.TLSTerminationReencrypt) as [Hr | Hr]];
      cbn [orb] in Hdeny; try discriminate;
      (split; [exists tls; split; [exact Htls | tauto] |
               exact (hstsRequirementsLoop_deny _ _ _ _ Hdeny)]).
  - left. injection Hdeny as <-. split; reflexivity.
Qed.

Lemma hstsRequirementsLoop_setTLS requirements route namespace tls :
  hstsRequirementsLoop requirements (setTLS route tls) namespace
  = hstsRequirementsLoop requirements route namespace.
Proof.
  induction requirements as [| requirement rest IH]; [reflexivity |].
  cbn [hstsRequirementsLoop]. rewrite IH. reflexivity.
Qed.

(** X17: Edge and Reencrypt are treated alike: a route gets the same
    decision whether its termination is Edge or Reencrypt. *)
Theorem edge_and_reencrypt_alike ingress route namespace (tls1 tls2 : routeapi.TLSConfig) :
  routeapi.Termination tls1 = routeapi.TLSTerminationEdge
  \/ routeapi.Termination tls1 = routeapi.TLSTerminationReencrypt ->
  routeapi.Termination tls2 = routeapi.TLSTerminationEdge
  \/ routeapi.Termination tls2 = routeapi.TLSTerminationReencrypt ->
  isRouteHSTSAllowed ingress (setTLS route (Some tls1)) namespace
  = isRouteHSTSAllowed ingress (setTLS route (Some tls2)) namespace.
Proof.
  intros H1 H2.
  rewrite !isRouteHSTSAllowed_requirements, !hstsRequirementsLoop_setTLS;
    [reflexivity | exists tls2; auto | exists tls1; auto].
Qed.

End EvaluatorProperties.

(** ** The wiring of the plugin *)

Section Wiring.

Context {RouteLister : Type}.

Implicit Types (o : requiredRouteAnnotations RouteLister)
  (calls : list (setterCall RouteLister)).

Lemma applyCalls_snoc o calls (call : setterCall RouteLister) :
  applyCalls o (calls ++ [call])%list = applyCall (applyCalls o calls) call.
Proof. unfold applyCalls. rewrite fold_left_app. reflexivity. Qed.

(** What a sequence of setter calls leaves in a new plugin: a lister is set
    exactly when its setter was called, and every call added one cache. *)
Lemma applyCalls_state calls :
  let o := applyCalls (newPlugin (RouteLister := RouteLister)) calls in
  (is_Some (nsLister o) <-> exists f, In (callKube f) calls)
  /\ (is_Some (routeLister o) <-> exists f, In (callRoute f) calls)
  /\ (is_Some (ingressLister o) <-> exists f, In (callConfig f) calls)
  /\ length (cachesToSync o) = length calls.
Proof.
  induction calls as [| call calls IH] using rev_ind.
  - cbn. split; [| split; [| split; [| reflexivity]]];
      (split; [intros [? [=]] | intros [? []]]).
  - cbv zeta in IH |- *. rewrite applyCalls_snoc.
    destruct IH as (Hns & Hroute & Hingress & Hlen).
    set (o := applyCalls newPlugin calls) in *.
    destruct call as [f | f | f]; cbn [applyCall];
      (split; [| split; [| split]]);
      cbn [SetExternalKubeInformerFactory SetOpenShiftRouteInformers
           SetOpenShiftConfigInformers nsLister routeLister ingressLister cachesToSync];
      try (rewrite !length_app, Hlen; reflexivity);
      try (split; [intros _; exists f; apply in_app_iff; right; left; reflexivity
                  | intros _; eexists; reflexivity]);
      first [rewrite Hns | rewrite Hroute | rewrite Hingress];
      (split;
       [ intros [g Hg]; exists g; apply in_app_iff; left; exact Hg
       | intros [g Hg]; apply in_app_iff in Hg as [Hg | [Hg | []]];
         [exists g; exact Hg | discriminate Hg] ]).
Qed.

Lemma three_kinds_length calls (k : KubeInformerFactory)
    (r : RouteInformerFactory RouteLister) (c : ConfigInformerFactory) :
  In (callKube k) calls -> In (callRoute r) calls -> In (callConfig c) calls ->
  (3 <= length calls)%nat.
Proof.
  intros Hk Hr Hc.
  apply in_split in Hk as (l1 & l2 & ->).
  assert (Hr' : In (callRoute r) (l1 ++ l2)%list).
  { apply in_app_iff in Hr as [? | [[=] | ?]]; apply in_app_iff; auto. }
  assert (Hc' : In (callConfig c) (l1 ++ l2)%list).
  { apply in_app_iff in Hc as [? | [[=] | ?]]; apply in_app_iff; auto. }
  apply in_split in Hr' as (m1 & m2 & Hm).
  assert (Hc'' : In (callConfig c) (m1 ++ m2)%list).
  { rewrite Hm in Hc'. apply in_app_iff in Hc' as [? | [[=] | ?]]; apply in_app_iff; auto. }
  assert (Hlen : (1 <= length (m1 ++ m2)%list)%nat).
  { destruct (m1 ++ m2)%list; [destruct Hc'' | cbn; lia]. }
  apply (f_equal (@length _)) in Hm.
  rewrite !length_app in *. cbn [length] in *. lia.
Qed.

(** X19: a plugin built by [NewRequiredRouteAnnotations] and any sequence of
    calls of its three setters passes [ValidateInitialization] exactly when
    each of the three setters was called at least once, in whatever order.
    Each call adds one cache to wait for, so the error about missing informer
    synced functions never comes up for such a plugin. *)
Theorem initialised_iff_all_setters_called calls :
  let o := applyCalls (newPlugin (RouteLister := RouteLister)) calls in
  (ValidateInitialization o = None <->
   (exists f, In (callKube f) calls) /\ (exists f, In (callRoute f) calls)
   /\ (exists f, In (callConfig f) calls))
  /\ length (cachesToSync o) = length calls
  /\ ValidateInitialization o
     <> Some (Errorf (pluginName +:+ " plugin missing informer synced functions")).
Proof.
  intros o. destruct (applyCalls_state calls) as (Hns & Hroute & Hingress & Hlen).
  fold o in Hns, Hroute, Hingress, Hlen.
  assert (Hthree : is_Some (nsLister o) -> is_Some (routeLister o) ->
                   is_Some (ingressLister o) -> (3 <= length (cachesToSync o))%nat).
  { intros H1 H2 H3. apply Hns in H1 as [k Hk]. apply Hroute in H2 as [r Hr].
    apply Hingress in H3 as [c Hc]. rewrite Hlen.
    exact (three_kinds_length _ _ _ _ Hk Hr Hc). }
  unfold ValidateInitialization.
  split; [| split; [exact Hlen |]].
  - rewrite <- Hns, <- Hroute, <- Hingress.
    destruct (ingressLister o) as [il |], (routeLister o) as [rl |], (nsLister o) as [nl |];
      try (split; [discriminate | intros (H1 & H2 & H3);
                                  first [solve [destruct H1 as [? [=]]]
                                        | solve [destruct H2 as [? [=]]]
                                        | solve [destruct H3 as [? [=]]]]]).
    specialize (Hthree ltac:(eexists; reflexivity) ltac:(eexists; reflexivity)
                       ltac:(eexists; reflexivity)).
    destruct (Nat.ltb_spec (length (cachesToSync o)) 3); [lia |].
    split; [intros _; repeat split; eexists; reflexivity | reflexivity].
  - destruct (ingressLister o) as [il |], (routeLister o) as [rl |], (nsLister o) as [nl |];
      try discriminate.
    specialize (Hthree ltac:(eexists; reflexivity) ltac:(eexists; reflexivity)
                       ltac:(eexists; reflexivity)).
    destruct (Nat.ltb_spec (length (cachesToSync o)) 3); [lia | discriminate].
Qed.

(** X20: the initializer of the OpenShift informers gives the plugin its
    ingress and route listers, not the namespace lister.  After [Initialize]
    alone, [ValidateInitialization] asks for the namespace lister; with the
    kube informers set before or after it, the plugin is initialised.  A
    plugin that implements neither interface is left as it is. *)
Theorem initializer_sets_openshift_informers
    (i : openshiftapiserveradmission.openshiftInformersInitializer RouteLister)
    (kubeInformers : KubeInformerFactory) :
  ValidateInitialization
    (openshiftapiserveradmission.Initialize i requiredRouteAnnotations_methods newPlugin)
  = Some (Errorf (pluginName +:+ " plugin needs a namespace lister"))
  /\ ValidateInitialization
       (SetExternalKubeInformerFactory
          (openshiftapiserveradmission.Initialize i requiredRouteAnnotations_methods
             newPlugin)
          kubeInformers)
     = None
  /\ ValidateInitialization
       (openshiftapiserveradmission.Initialize i requiredRouteAnnotations_methods
          (SetExternalKubeInformerFactory newPlugin kubeInformers))
     = None
  /\ (forall (P : Type) (plugin : P),
        openshiftapiserveradmission.Initialize i
          {| openshiftapiserveradmission.asWantsOpenShiftConfigInformers := None;
             openshiftapiserveradmission.asWantsOpenShiftRouteInformers := None |}
          plugin
        = plugin).
Proof.
  split; [reflexivity |]. split; [| split; [| reflexivity]].
  - apply (proj2 (proj1 (initialised_iff_all_setters_called
                           [callConfig (openshiftapiserveradmission.configInformers i);
                            callRoute (openshiftapiserveradmission.routeInformers i);
                            callKube kubeInformers]))).
    split; [| split]; eexists.
    + right. right. left. reflexivity.
    + right. left. reflexivity.
    + left. reflexivity.
  - apply (proj2 (proj1 (initialised_iff_all_setters_called
                           [callKube kubeInformers;
                            callConfig (openshiftapiserveradmission.configInformers i);
                            callRoute (openshiftapiserveradmission.routeInformers i)]))).
    split; [| split]; eexists.
    + left. reflexivity.
    + right. right. left. reflexivity.
    + right. left. reflexivity.
Qed.

(** ** Validate *)

Context {re : RegexpLib} {lb : LabelsLib}.

(** X21: what [Validate] admits.  A request passes exactly when it is not
    for a route (another resource, or an object that is not a route), or when
    every cache has synced, the ingress named cluster and the namespace of
    the route are found, and the evaluator allows the route. *)
Theorem Validate_admits_iff o (a : admission.Attributes) :
  Validate o a = Done None <->
  admission.GroupResource (admission.GetResource a) <> routev1_Resource "routes"
  \/ admission.GetObject a = admission.OtherObject
  \/ exists newRoute ingresses ingress namespaces namespace,
       routeRequest a newRoute
       /\ waitForSyncedStore o = true
       /\ ingressLister o = Some ingresses /\ ingresses "cluster" = inl ingress
       /\ nsLister o = Some namespaces
       /\ namespaces (routeapi.Namespace newRoute) = inl namespace
       /\ isRouteHSTSAllowed ingress newRoute namespace = Allow.
Proof.
  unfold Validate, routeRequest.
  destruct (bool_decide_reflect (admission.GroupResource (admission.GetResource a)
                                 = routev1_Resource "routes")) as [Hres | Hres]; cbn [negb].
  2: { split; [intros _; left; exact Hres | reflexivity]. }
  destruct (admission.GetObject a) as [newRoute |] eqn:Hobj.
  2: { split; [intros _; right; left; reflexivity | reflexivity]. }
  split.
  - intros Hv. right. right.
    destruct (waitForSyncedStore o); cbn [negb] in Hv; [| discriminate].
    destruct (ingressLister o) as [ingresses |]; [| discriminate].
    destruct (ingresses "cluster") as [ingress | err] eqn:Hi; [| discriminate].
    destruct (nsLister o) as [namespaces |]; [| discriminate].
    destruct (namespaces (routeapi.Namespace newRoute)) as [namespace | err] eqn:Hn;
      [| discriminate].
    destruct (isRouteHSTSAllowed ingress newRoute namespace) as [[err |] | msg] eqn:He;
      cbn in Hv; try discriminate.
    exists newRoute, ingresses, ingress, namespaces, namespace. repeat split; auto.
  - intros [Hne | [[=] | (r & ingresses & ingress & namespaces & namespace
                          & [_ [= <-]] & -> & -> & Hi & -> & Hn & He)]];
      [contradiction |].
    cbn [negb]. rewrite Hi, Hn, He. reflexivity.
Qed.

(** X22: what [Validate] forbids, and why.  A rejection is for a route
    request and carries the attributes of the request.  Its cause is, in this
    order: a cache that has not synced, whatever the listers hold; the error
    of the ingress lister; the error of the namespace lister; or the denial
    reason of the evaluator on the ingress named cluster and the namespace of
    the route. *)
Theorem Validate_forbids_causes o (a a' : admission.Attributes)
    (cause : admission.internalError) :
  Validate o a = Done (Some (admission.NewForbidden a' cause)) ->
  a' = a
  /\ exists newRoute,
       routeRequest a newRoute
       /\ ((waitForSyncedStore o = false
            /\ cause = admission.errorsNew (pluginName +:+ ": caches not synchronized"))
           \/ (waitForSyncedStore o = true
               /\ exists ingresses, ingressLister o = Some ingresses
                  /\ ((exists err, ingresses "cluster" = inr err
                         /\ cause = admission.listerError err)
                      \/ exists ingress namespaces,
                           ingresses "cluster" = inl ingress
                           /\ nsLister o = Some namespaces
                           /\ ((exists err,
                                  namespaces (routeapi.Namespace newRoute) = inr err
                                  /\ cause = admission.listerError err)
                               \/ exists namespace reason,
                                    namespaces (routeapi.Namespace newRoute) = inl namespace
                                    /\ isRouteHSTSAllowed ingress newRoute namespace
                                       = Deny reason
                                    /\ cause = admission.routeError reason)))).
Proof.
  unfold Validate, routeRequest.
  destruct (bool_decide_reflect (admission.GroupResource (admission.GetResource a)
                                 = routev1_Resource "routes")) as [Hres | Hres]; cbn [negb];
    [| discriminate].
  destruct (admission.GetObject a) as [newRoute |] eqn:Hobj; [| discriminate].
  destruct (waitForSyncedStore o); cbn [negb].
  2: { intros [= <- <-]. split; [reflexivity |]. exists newRoute. auto. }
  destruct (ingressLister o) as [ingresses |]; [| discriminate].
  destruct (ingresses "cluster") as [ingress | err] eqn:Hi.
  2: { intros [= <- <-]. split; [reflexivity |]. exists newRoute.
       split; [auto |]. right. split; [reflexivity |]. exists ingresses. eauto. }
  destruct (nsLister o) as [namespaces |]; [| discriminate].
  destruct (namespaces (routeapi.Namespace newRoute)) as [namespace | err] eqn:Hn.
  2: { intros [= <- <-]. split; [reflexivity |]. exists newRoute.
       split; [auto |]. right. split; [reflexivity |]. exists ingresses.
       split; [reflexivity |]. right. exists ingress, namespaces. eauto 8. }
  destruct (isRouteHSTSAllowed ingress newRoute namespace) as [[reason |] | msg] eqn:He;
    cbn; try discriminate.
  intros [= <- <-]. split; [reflexivity |]. exists newRoute.
  split; [auto |]. right. split; [reflexivity |]. exists ingresses.
  split; [reflexivity |]. right. exists ingress, namespaces.
  split; [exact Hi |]. split; [reflexivity |]. right. exists namespace, reason. auto.
Qed.

(** X23: [ValidateInitialization] is what keeps [Validate] off a nil lister.
    On a plugin that passes it, a panic of [Validate] is a panic of the
    evaluator (a domain pattern that does not compile).  A plugin fresh from
    [NewRequiredRouteAnnotations] has no cache to wait for and no lister, and
    panics on every route request. *)
Theorem Validate_panics o (a : admission.Attributes) :
  (ValidateInitialization o = None ->
   forall msg, Validate o a = Panic msg ->
     exists newRoute ingresses ingress namespaces namespace,
       routeRequest a newRoute
       /\ ingressLister o = Some ingresses /\ ingresses "cluster" = inl ingress
       /\ nsLister o = Some namespaces
       /\ namespaces (routeapi.Namespace newRoute) = inl namespace
       /\ isRouteHSTSAllowed ingress newRoute namespace = Panic msg)
  /\ (forall newRoute, routeRequest a newRoute ->
        Validate (newPlugin (RouteLister := RouteLister)) a = Panic nilDereference).
Proof.
  split.
  - unfold ValidateInitialization, Validate, routeRequest. intros Hinit msg.
    destruct (ingressLister o) as [ingresses |]; [| discriminate].
    destruct (routeLister o); [| discriminate].
    destruct (nsLister o) as [namespaces |]; [| discriminate].
    destruct (bool_decide_reflect (admission.GroupResource (admission.GetResource a)
                                   = routev1_Resource "routes")) as [Hres | Hres];
      cbn [negb]; [| discriminate].
    destruct (admission.GetObject a) as [newRoute |] eqn:Hobj; [| discriminate].
    destruct (waitForSyncedStore o); cbn [negb]; [| discriminate].
    destruct (ingresses "cluster") as [ingress | err] eqn:Hi; [| discriminate].
    destruct (namespaces (routeapi.Namespace newRoute)) as [namespace | err] eqn:Hn;
      [| discriminate].
    destruct (isRouteHSTSAllowed ingress newRoute namespace) as [[reason |] | msg'] eqn:He;
      cbn; try discriminate.
    intros [= <-]. exists newRoute, ingresses, ingress, namespaces, namespace.
    repeat split; auto.
  - intros newRoute [Hres Hobj]. unfold Validate. rewrite Hobj.
    destruct (bool_decide_reflect (admission.GroupResource (admission.GetResource a)
                                   = routev1_Resource "routes")); [| contradiction].
    reflexivity.
Qed.

End Wiring.

(** ** The allowed routes *)

Section Allowed.

Context {re : RegexpLib} {lb : LabelsLib}.

Implicit Types (requirement : configv1.RequiredHSTSPolicy) (route : routeapi.Route)
  (namespace : corev1.Namespace) (ingress : configv1.Ingress).

(** The parser returns a configuration or an error, never both or none. *)
Lemma hstsConfigFromRoute_shape route :
  (exists c, hstsConfigFromRoute route = (Some c, None))
  \/ (exists err, hstsConfigFromRoute route = (None, Some err)).
Proof.
  unfold hstsConfigFromRoute. cbv zeta.
  destruct (reg.FindStringSubmatch _) as [| w [| group rest]]; eauto.
  destruct (GoStrconv.ParseInt group 32) as [age [err |]]; eauto.
Qed.

Lemma hstsRequirementsLoop_allow requirements route namespace :
  hstsRequirementsLoop requirements route namespace = Allow <->
  Forall (fun requirement => passedOver requirement route namespace) requirements
  \/ exists pre requirement post c,
       requirements = (pre ++ requirement :: post)%list
       /\ Forall (fun earlier => passedOver earlier route namespace) pre
       /\ matched requirement route namespace
       /\ hstsConfigFromRoute route = (Some c, None)
       /\ compliant c requirement.
Proof.
  split.
  - unfold Allow. induction requirements as [| requirement rest IH].
    + intros _. left. constructor.
    + cbn [hstsRequirementsLoop].
      destruct (requiredNamespaceDomainMatchesRoute requirement route namespace)
        as [[[a b] [err |]] | msg] eqn:Heval; cbn; try discriminate.
      destruct (a && b) eqn:Hab; cbn.
      * apply andb_prop in Hab as [-> ->]. intros Hv. right.
        destruct (hstsConfigFromRoute_shape route) as [[c Hc] | [err Hc]];
          rewrite Hc in Hv; [| discriminate].
        destruct (meetsRequirements c requirement) eqn:Hm; [discriminate |].
        exists [], requirement, rest, c.
        split; [reflexivity |]. split; [constructor |]. split; [exact Heval |].
        split; [exact Hc | apply meetsRequirements_iff_compliant, Hm].
      * intros Hrest.
        assert (Hp : passedOver requirement route namespace) by (exists a, b; auto).
        destruct (IH Hrest) as [Hall | (pre & r & post & c & -> & Hpre & H)].
        -- left. constructor; assumption.
        -- right. exists (requirement :: pre), r, post, c.
           split; [reflexivity |]. split; [constructor; assumption | exact H].
  - intros [Hall | (pre & requirement & post & c & -> & Hpre & Hm & Hc & Hcomp)].
    + rewrite <- (app_nil_r requirements).
      rewrite (hstsRequirementsLoop_prefix _ _ _ _ Hall). reflexivity.
    + rewrite (hstsRequirementsLoop_prefix _ _ _ _ Hpre),
        (hstsRequirementsLoop_matched _ _ _ _ Hm), Hc.
      apply meetsRequirements_iff_compliant in Hcomp. rewrite Hcomp. reflexivity.
Qed.

(** X18: the allowed routes.  A route is allowed exactly when it has a TLS
    configuration and either its termination is neither Edge nor Reencrypt,
    or every requirement is passed over, or the first requirement that is not
    passed over matches the route and the annotation parses to a
    configuration that complies with it. *)
Theorem allowed_iff ingress route namespace :
  isRouteHSTSAllowed ingress route namespace = Allow <->
  exists tls,
    routeapi.TLS (routeapi.Spec route) = Some tls
    /\ ((routeapi.Termination tls <> routeapi.TLSTerminationEdge
         /\ routeapi.Termination tls <> routeapi.TLSTerminationReencrypt)
        \/ (tlsEdgeOrReencrypt route
            /\ (Forall (fun requirement => passedOver requirement route namespace)
                  (configv1.RequiredHSTSPolicies (configv1.Spec ingress))
                \/ exists pre requirement post c,
                     configv1.RequiredHSTSPolicies (configv1.Spec ingress)
                       = (pre ++ requirement :: post)%list
                     /\ Forall (fun earlier => passedOver earlier route namespace) pre
                     /\ matched requirement route namespace
                     /\ hstsConfigFromRoute route = (Some c, None)
                     /\ compliant c requirement))).
Proof.
  split.
  - intros Hallow.
    destruct (routeapi.TLS (routeapi.Spec route)) as [tls |] eqn:Htls.
    + exists tls. split; [reflexivity |].
      destruct (String.eqb_spec (routeapi.Termination tls) routeapi.TLSTerminationEdge)
        as [He | He];
        [| destruct (String.eqb_spec (routeapi.Termination tls)
                       routeapi.TLSTerminationReencrypt) as [Hr | Hr]];
        [right | right | left; auto];
        (assert (Ht : tlsEdgeOrReencrypt route) by (exists tls; auto);
         split; [exact Ht |];
         rewrite (isRouteHSTSAllowed_requirements _ _ _ Ht) in Hallow;
         apply hstsRequirementsLoop_allow, Hallow).
    + unfold isRouteHSTSAllowed in Hallow. rewrite Htls in Hallow. discriminate.
  - intros (tls & Htls & [[He Hr] | [Ht Hloop]]).
    + exact (other_termination_allowed _ _ _ _ Htls He Hr).
    + rewrite (isRouteHSTSAllowed_requirements _ _ _ Ht).
      apply hstsRequirementsLoop_allow, Hloop.
Qed.

End Allowed.

(** X1: a parsed max-age is a non-negative number that fits the range of
    int32, so the conversion to int32 never wraps; and a configuration never
    comes with an error. *)
Theorem parsed_max_age_in_range (route : routeapi.Route) (c : hstsConfig) (err : option error) :
  hstsConfigFromRoute route = (Some c, err) ->
  err = None /\ 0 <= maxAge c <= 2147483647.
Proof.
  intros Hparse.
  assert (Herr : err = None).
  { destruct err as [e |]; [| reflexivity].
    destruct (parse_failures _ _ _ Hparse) as [[=] _]. }
  subst err. split; [reflexivity |].
  pose proof (hstsConfigFromRoute_maxAge_range _ _ Hparse) as Hr.
  change (2 ^ 31) with 2147483648 in Hr. lia.
Qed.

(** ** Runs of the further properties *)

Lemma parsed_max_age_in_range_witness :
  hstsConfigFromRoute (Sample.app "max-age=2147483647")
    = (Some (Sample.config 2147483647 false false), None)
  /\ 0 <= 2147483647 <= 2147483647.
Proof.
  assert (Hparse : hstsConfigFromRoute (Sample.app "max-age=2147483647")
                   = (Some (Sample.config 2147483647 false false), None))
    by (vm_compute; reflexivity).
  split; [exact Hparse |].
  exact (proj2 (parsed_max_age_in_range _ _ _ Hparse)).
Defined.

Lemma parse_failures_witness :
  let route := Sample.app "max-age=2147483648" in
  exists err, hstsConfigFromRoute route = (None, Some err)
    /\ ((err = errMaxAgeNotSet /\ ~ containsMaxAge (trimmedAnnotation route))
        \/ (exists digits v,
              err = numError (GoStrconv.rangeError "ParseInt" digits)
              /\ GoStrconv.digitsValue 0 digits = Some v /\ 2 ^ 31 <= v
              /\ containsMaxAge (trimmedAnnotation route))).
Proof.
  intros route.
  assert (Hparse : hstsConfigFromRoute route
                   = (None, Some (numError (GoStrconv.rangeError "ParseInt" "2147483648"))))
    by (vm_compute; reflexivity).
  eexists. split; [exact Hparse |].
  exact (proj2 (parse_failures _ _ _ Hparse)).
Defined.

Lemma first_max_age_decides_witness :
  exists c, hstsConfigFromRoute (Sample.app "preload; Max-Age=10; max-age=20")
            = (Some c, None) /\ maxAge c = 10.
Proof.
  apply (first_max_age_decides (Sample.app "preload; Max-Age=10; max-age=20")
           "preload;" "10" ";max-age=20" 10).
  - vm_compute. reflexivity.
  - apply FindStringSubmatch_nil. vm_compute. reflexivity.
  - discriminate.
  - vm_compute. reflexivity.
  - vm_compute. reflexivity.
  - reflexivity.
Defined.

Lemma parse_ignores_case_and_spaces_witness :
  hstsConfigFromRoute (setHSTSAnnotation (Sample.app "") "Max-Age = 36 00; Pre Load")
  = hstsConfigFromRoute (setHSTSAnnotation (Sample.app "") "max-age=3600;preload").
Proof.
  apply (proj1 (parse_ignores_case_and_spaces (Sample.app "")
                  "Max-Age = 36 00; Pre Load" "max-age=3600;preload")).
  vm_compute. reflexivity.
Defined.

Lemma flags_are_whole_tokens_witness :
  let route := Sample.app "max-age=10 preload; includeSubDomains" in
  hstsConfigFromRoute route = (Some (Sample.config 10 false true), None)
  /\ ~ In "preload" (annotationTokens route)
  /\ In "includesubdomains" (annotationTokens route).
Proof.
  intros route.
  assert (Hparse : hstsConfigFromRoute route = (Some (Sample.config 10 false true), None))
    by (vm_compute; reflexivity).
  assert (Hascii : isASCII (hstsAnnotationOf route) = true) by (vm_compute; reflexivity).
  destruct (flags_are_whole_tokens _ _ Hascii Hparse) as [Hpre Hinc].
  split; [exact Hparse |]. split.
  - intros Hin. apply Hpre in Hin. discriminate Hin.
  - apply Hinc. reflexivity.
Defined.

Lemma meetsRequirements_iff_compliant_witness :
  compliant (Sample.config 7200 true false) Sample.needsPreload
  /\ ~ compliant (Sample.config 7200 false false) Sample.needsPreload.
Proof.
  split.
  - apply (proj1 (meetsRequirements_iff_compliant _ _)). reflexivity.
  - intros Hc. apply (proj2 (meetsRequirements_iff_compliant _ _)) in Hc. discriminate Hc.
Defined.

Lemma meetsRequirements_first_failure_witness :
  meetsRequirements (Sample.config 99 false false)
    (Sample.bounded configv1.RequirePreloadPolicy configv1.RequireIncludeSubDomains)
  = Some (Errorf "does not match minimum age 100")
  /\ ~ (exists largest,
          Some 200 = Some largest /\ 0 <= largest < 99).
Proof.
  assert (Hm : meetsRequirements (Sample.config 99 false false)
                 (Sample.bounded configv1.RequirePreloadPolicy
                    configv1.RequireIncludeSubDomains)
               = Some (Errorf "does not match minimum age 100")) by reflexivity.
  split; [exact Hm |].
  destruct (meetsRequirements_first_failure _ _ _ Hm)
    as [(l & Hl & Hr & _) | [[Hmax _] | [(_ & Hmin & _) | (_ & Hmin & _)]]].
  - cbn in Hl. injection Hl as <-. cbn in Hr. lia.
  - intros (l & [= <-] & Hr). lia.
  - specialize (Hmin 100 eq_refl ltac:(lia)). cbn in Hmin. lia.
  - specialize (Hmin 100 eq_refl ltac:(lia)). cbn in Hmin. lia.
Defined.

Lemma contradictory_bounds_reject_all_witness :
  is_Some (meetsRequirements (Sample.config 150 true true) SamplePlugin.contradictory).
Proof.
  apply (contradictory_bounds_reject_all (Sample.config 150 true true)
           SamplePlugin.contradictory 200 100);
    [reflexivity | reflexivity | lia].
Defined.

Lemma unknown_policy_is_no_opinion_witness :
  meetsRequirements (Sample.config 1 false false) SamplePlugin.zeroPolicies
  = meetsRequirements (Sample.config 1 false false)
      (setPolicies SamplePlugin.zeroPolicies configv1.NoOpinionPreloadPolicy "").
Proof.
  apply (proj1 (unknown_policy_is_no_opinion (Sample.config 1 false false)
                  SamplePlugin.zeroPolicies)); discriminate.
Defined.

Lemma exampleCom_compiles : Forall compiles Sample.exampleCom.
Proof. constructor; [eexists; vm_compute; reflexivity | constructor]. Defined.

Lemma matchesDomain_compiled_witness :
  matchesDomain Sample.exampleCom ["app.example.org"; "app.example.com"] = Done true
  /\ matchesDomain Sample.exampleCom ["example.com"; "app.example.com.evil.org"]
     = Done false
  /\ matchesDomain [] ["app.example.com"] = Done false.
Proof.
  split; [| split].
  - rewrite (proj1 (matchesDomain_compiled Sample.exampleCom _ exampleCom_compiles)).
    vm_compute. reflexivity.
  - rewrite (proj1 (matchesDomain_compiled Sample.exampleCom _ exampleCom_compiles)).
    vm_compute. reflexivity.
  - exact (proj1 (matchesDomain_compiled [] ["app.example.com"] ltac:(constructor))).
Defined.

Lemma matchesDomain_panics_iff_witness :
  matchesDomain (Sample.exampleOrg ++ Sample.unbalanced ++ Sample.exampleCom)
    ["app.example.com"]
  = Panic (compilePanic "(").
Proof.
  apply (proj2 (matchesDomain_panics_iff _ _ _)).
  exists Sample.exampleOrg, "(", Sample.exampleCom.
  split; [reflexivity |]. split.
  - constructor; [eexists; vm_compute; reflexivity | constructor].
  - split; [vm_compute; reflexivity |]. split; [vm_compute; reflexivity | reflexivity].
Defined.

Lemma matched_iff_witness :
  matched Sample.lax SamplePlugin.orgWithComStatus Sample.nsDefault.
Proof.
  apply (proj2 (matched_iff Sample.lax SamplePlugin.orgWithComStatus Sample.nsDefault
                  exampleCom_compiles)).
  split; [left; reflexivity |].
  eexists ".*\.example\.com", _, "app.example.com".
  split; [left; reflexivity |]. split; [vm_compute; reflexivity |].
  split; [right; left; reflexivity | vm_compute; reflexivity].
Defined.

Lemma passed_over_requirement_is_inert_witness :
  isRouteHSTSAllowed
    (ingressWith ([Sample.orgOnly] ++ SamplePlugin.noPatterns :: [Sample.minHour]))
    (Sample.app "max-age=7200") Sample.nsDefault
  = isRouteHSTSAllowed (ingressWith ([Sample.orgOnly] ++ [Sample.minHour]))
      (Sample.app "max-age=7200") Sample.nsDefault.
Proof.
  apply (proj2 (passed_over_requirement_is_inert [Sample.orgOnly] SamplePlugin.noPatterns
                  [Sample.minHour] (Sample.app "max-age=7200") Sample.nsDefault));
    [reflexivity | left; reflexivity].
Defined.

Lemma lax_not_passedOver (value : string) :
  ~ passedOver Sample.lax (Sample.app value) Sample.nsDefault.
Proof.
  intros (a & b & Heval & Hab). vm_compute in Heval.
  injection Heval as <- <-. discriminate Hab.
Defined.

Lemma walk_stops_at_first_hit_witness :
  isRouteHSTSAllowed
    (ingressWith ([Sample.orgOnly] ++ Sample.lax :: [Sample.rejected; Sample.unparsable]))
    (Sample.app "max-age=1") Sample.nsDefault
  = isRouteHSTSAllowed (ingressWith ([Sample.orgOnly] ++ Sample.lax :: []))
      (Sample.app "max-age=1") Sample.nsDefault.
Proof.
  apply (walk_stops_at_first_hit [Sample.orgOnly] Sample.lax
           [Sample.rejected; Sample.unparsable] [] (Sample.app "max-age=1")
           Sample.nsDefault (orgOnly_prefix _) (lax_not_passedOver _)).
Defined.

Lemma panics_only_on_bad_pattern_witness :
  exists decision,
    isRouteHSTSAllowed (ingressWith [Sample.orgOnly; Sample.rejected; Sample.lax])
      (Sample.app "max-age=1") Sample.nsDefault
    = Done decision.
Proof.
  apply (proj2 (panics_only_on_bad_pattern
                  (ingressWith [Sample.orgOnly; Sample.rejected; Sample.lax])
                  (Sample.app "max-age=1") Sample.nsDefault)).
  repeat constructor; eexists; vm_compute; reflexivity.
Defined.

Lemma denial_causes_witness :
  let route := Sample.app "max-age=1800" in
  isRouteHSTSAllowed (ingressWith [Sample.orgOnly; Sample.minHour]) route Sample.nsDefault
    = Deny (Errorf "does not match minimum age 3600")
  /\ routeapi.TLS (routeapi.Spec route) <> None.
Proof.
  intros route.
  assert (Hd : isRouteHSTSAllowed (ingressWith [Sample.orgOnly; Sample.minHour]) route
                 Sample.nsDefault
               = Deny (Errorf "does not match minimum age 3600"))
    by (vm_compute; reflexivity).
  split; [exact Hd |].
  destruct (denial_causes _ _ _ _ Hd) as [[_ Hreason] | [(tls & Htls & _) _]].
  - discriminate Hreason.
  - rewrite Htls. discriminate.
Defined.

Lemma edge_and_reencrypt_alike_witness :
  isRouteHSTSAllowed (ingressWith [Sample.minHour])
    (setTLS (Sample.app "max-age=1800")
       (Some {| routeapi.Termination := routeapi.TLSTerminationEdge |}))
    Sample.nsDefault
  = isRouteHSTSAllowed (ingressWith [Sample.minHour])
      (setTLS (Sample.app "max-age=1800")
         (Some {| routeapi.Termination := routeapi.TLSTerminationReencrypt |}))
      Sample.nsDefault.
Proof.
  apply (edge_and_reencrypt_alike (ingressWith [Sample.minHour])
           (Sample.app "max-age=1800") Sample.nsDefault);
    [left | right]; reflexivity.
Defined.

Lemma allowed_iff_witness :
  isRouteHSTSAllowed (ingressWith [Sample.orgOnly; Sample.minHour])
    (Sample.app "max-age=7200") Sample.nsDefault
  = Allow.
Proof.
  apply (proj2 (allowed_iff (ingressWith [Sample.orgOnly; Sample.minHour])
                  (Sample.app "max-age=7200") Sample.nsDefault)).
  eexists. split; [reflexivity |]. right.
  split; [apply app_tlsEdgeOrReencrypt |]. right.
  exists [Sample.orgOnly], Sample.minHour, [], (Sample.config 7200 false false).
  split; [reflexivity |]. split; [apply orgOnly_prefix |]. split; [reflexivity |].
  split; [vm_compute; reflexivity |].
  apply (proj1 (meetsRequirements_iff_compliant _ _)). reflexivity.
Defined.

Lemma initialised_iff_all_setters_called_witness :
  ValidateInitialization (SamplePlugin.plugin [Sample.minHour] true) = None
  /\ ValidateInitialization
       (applyCalls newPlugin
          [callKube (SamplePlugin.kube true); callKube (SamplePlugin.kube true);
           callRoute (SamplePlugin.routes true)])
     = Some (Errorf (pluginName +:+ " plugin needs an ingress lister")).
Proof.
  split; [| reflexivity].
  apply (proj2 (proj1 (initialised_iff_all_setters_called
                         [callKube (SamplePlugin.kube true);
                          callRoute (SamplePlugin.routes true);
                          callConfig (SamplePlugin.config [Sample.minHour] true)]))).
  split; [| split]; eexists.
  - left. reflexivity.
  - right. left. reflexivity.
  - right. right. left. reflexivity.
Defined.

Lemma initializer_sets_openshift_informers_witness :
  ValidateInitialization
    (SetExternalKubeInformerFactory
       (openshiftapiserveradmission.Initialize SamplePlugin.initializer
          requiredRouteAnnotations_methods newPlugin)
       (SamplePlugin.kube true))
  = None.
Proof.
  exact (proj1 (proj2 (initializer_sets_openshift_informers SamplePlugin.initializer
                         (SamplePlugin.kube true)))).
Defined.

Lemma Validate_admits_iff_witness :
  Validate (SamplePlugin.plugin [Sample.minHour] true)
    (SamplePlugin.request (Sample.app "max-age=7200"))
  = Done None
  /\ Validate (SamplePlugin.plugin [Sample.minHour] false)
       {| admission.GetResource := SamplePlugin.podsResource;
          admission.GetObject := admission.OtherObject |}
     = Done None.
Proof.
  split.
  - apply (proj2 (Validate_admits_iff _ _)). right. right.
    exists (Sample.app "max-age=7200"), (SamplePlugin.ingresses [Sample.minHour]),
      (ingressWith [Sample.minHour]), SamplePlugin.namespaces, Sample.nsDefault.
    repeat split; vm_compute; reflexivity.
  - apply (proj2 (Validate_admits_iff _ _)). left. discriminate.
Defined.

Lemma Validate_forbids_causes_witness :
  let a := SamplePlugin.request (Sample.app "max-age=1800") in
  Validate (SamplePlugin.plugin [Sample.minHour] true) a
    = Done (Some (admission.NewForbidden a
                    (admission.routeError (Errorf "does not match minimum age 3600"))))
  /\ Validate (SamplePlugin.plugin [Sample.minHour] false) a
     = Done (Some (admission.NewForbidden a
                     (admission.errorsNew (pluginName +:+ ": caches not synchronized"))))
  /\ exists newRoute, routeRequest a newRoute.
Proof.
  intros a.
  assert (Hv : Validate (SamplePlugin.plugin [Sample.minHour] true) a
               = Done (Some (admission.NewForbidden a
                    (admission.routeError (Errorf "does not match minimum age 3600")))))
    by (vm_compute; reflexivity).
  split; [exact Hv |]. split; [vm_compute; reflexivity |].
  destruct (Validate_forbids_causes _ _ _ _ Hv) as (_ & newRoute & Hreq & _).
  exists newRoute. exact Hreq.
Defined.

Lemma Validate_panics_witness :
  Validate (newPlugin (RouteLister := unit))
    (SamplePlugin.request (Sample.app "max-age=7200"))
  = Panic nilDereference.
Proof.
  apply (proj2 (Validate_panics (newPlugin (RouteLister := unit))
                  (SamplePlugin.request (Sample.app "max-age=7200")))
           (Sample.app "max-age=7200")).
  split; reflexivity.
Defined.

(** The text of the panic on the pattern with an open parenthesis. *)
Example unbalanced_panic_text :
  matchesDomain Sample.unbalanced ["app.example.com"]
  = Panic "regexp: Compile(`^($`): error parsing regexp: missing closing ): `^($`".
Proof. vm_compute. reflexivity. Qed.
